(** * instaseis: the finite-source seismogram route

    A shallow embedding of [instaseis/server/routes/finite_source.py]:
    the preparation of the finite source, the resolution of the time
    settings of a request and the loop that streams one seismogram per
    receiver.

    Numbers.  Python floats and [obspy.UTCDateTime] values are embedded as
    exact rationals ([Q]); a [UTCDateTime] is its POSIX timestamp in
    seconds.  The quotient of line 94, from which [math.ceil] takes the
    number of padding samples, is computed on binary64 numbers as the
    float operations compute it; elsewhere the rounding of IEEE
    arithmetic is outside this model. *)

From Stdlib Require Import ZArith QArith Qround Qabs Qpower List String Bool
  Lia Lqa.
Import ListNotations.

Local Open Scope Q_scope.

(** ** Python values *)

(** Exceptions the route can meet. *)
Inductive exn : Type :=
| HTTPError (status_code : Z) (reason : string)
| ZeroDivisionError
| ValueError
| TypeError
| OverflowError
| AssertionError
| OtherError (details : string).

Inductive result (A : Type) : Type :=
| Ok (a : A)
| Raise (e : exn).
Arguments Ok {A} a.
Arguments Raise {A} e.

Definition bind {A B : Type} (r : result A) (k : A -> result B) : result B :=
  match r with
  | Ok a => k a
  | Raise e => Raise e
  end.

Notation "x <- r ;; k" := (bind r (fun x => k))
  (at level 61, r at next level, right associativity).

(** [a / b] on floats. *)
Definition py_div (a b : Q) : result Q :=
  if Qeq_bool b 0 then Raise ZeroDivisionError else Ok (a / b).

(** Rounding to the nearest integer, ties to even: what [round] does. *)
Definition round_half_even (x : Q) : Z :=
  let f := Qfloor x in
  match Qcompare (x - inject_Z f) (1 # 2) with
  | Lt => f
  | Gt => (f + 1)%Z
  | Eq => if Z.even f then f else (f + 1)%Z
  end.

(** [round(x, ndigits)]. *)
Definition py_round (x : Q) (ndigits : N) : Q :=
  let scale := inject_Z (10 ^ Z.of_N ndigits) in
  inject_Z (round_half_even (x * scale)) / scale.

(** [np.zeros(n)]: a negative dimension is refused. *)
Definition np_zeros (n : Z) : result (list Q) :=
  if (n <? 0)%Z then Raise ValueError else Ok (repeat 0 (Z.to_nat n)).

(** [a < b] on rationals, as a boolean. *)
Definition Qlt_bool (a b : Q) : bool := negb (Qle_bool b a).

(** ** Binary64

    A float is a rational or an infinity; a float operation gives the
    binary64 number nearest to the exact result, ties to even, with
    subnormal numbers below [2^-1022] and an infinity from [2^1024]. *)
Inductive float64 : Type :=
| Finite (x : Q)
| Infinity (negative : bool).

Definition pow2 (z : Z) : Q := 2 ^ z.

(** The exponent [e] with [2^e <= a < 2^(e+1)], for a positive [a]. *)
Definition Qlog2 (a : Q) : Z :=
  let k := (Z.log2 (Qnum a) - Z.log2 (Zpos (Qden a)))%Z in
  if Qle_bool (pow2 k) a then k else (k - 1)%Z.

(** Rounding to binary64: 53 bits from the leading one, or the multiples
    of [2^-1074] for a subnormal result. *)
Definition binary64 (x : Q) : float64 :=
  if Qeq_bool x 0 then Finite 0
  else
    let a := Qabs x in
    let e := Z.max (Qlog2 a - 52) (-1074) in
    let y := inject_Z (round_half_even (a / pow2 e)) * pow2 e in
    if Qle_bool (pow2 1024) y then Infinity (Qlt_bool x 0)
    else Finite (if Qlt_bool x 0 then - y else y).

(** The float that a field written [x] holds: the binary64 number
    nearest to [x], which is [x] itself when [x] is one. *)
Definition float_value (x : Q) : Q :=
  match binary64 x with
  | Finite y => y
  | Infinity _ => x
  end.

(** [a * b] on floats. *)
Definition float_mul (a b : Q) : float64 := binary64 (a * b).

(** [a / b] on floats, for a quotient that an integer is taken from. *)
Definition float_div (a : float64) (b : Q) : result float64 :=
  if Qeq_bool b 0 then Raise ZeroDivisionError
  else
    match a with
    | Finite x => Ok (binary64 (x / b))
    | Infinity negative => Ok (Infinity (xorb negative (Qlt_bool b 0)))
    end.

(** [math.ceil]: an infinity has no ceiling. *)
Definition math_ceil (x : float64) : result Z :=
  match x with
  | Finite q => Ok (Qceiling q)
  | Infinity _ => Raise OverflowError
  end.

(** ** Times *)

Definition UTCDateTime : Type := Q.

(** Days between 1970-01-01 and the civil date [y]-[m]-[d] (proleptic
    Gregorian calendar). *)
Definition days_from_civil (y m d : Z) : Z :=
  let y' := (if m <=? 2 then y - 1 else y)%Z in
  let era := (y' / 400)%Z in
  let yoe := (y' - era * 400)%Z in
  let mp := ((m + 9) mod 12)%Z in
  let doy := ((153 * mp + 2) / 5 + d - 1)%Z in
  let doe := (yoe * 365 + yoe / 4 - yoe / 100 + doy)%Z in
  (era * 146097 + doe - 719468)%Z.

(** [obspy.UTCDateTime(y, m, d)]: midnight of that day. *)
Definition UTCDateTime_ymd (y m d : Z) : UTCDateTime :=
  inject_Z (86400 * days_from_civil y m d).

(** What [_validtimesetting] produces for [starttime] and [endtime]: a
    float (seconds relative to another time), an absolute time, or an
    [AttribDict] naming a phase and an offset. *)
Inductive TimeSetting : Type :=
| TSFloat (offset : Q)
| TSAbsolute (t : UTCDateTime)
| TSPhase (phase : string) (offset : Q).

Definition is_absolute (s : TimeSetting) : bool :=
  match s with TSAbsolute _ => true | _ => false end.

(** ** Records *)

(** [db.info]: the fields the route reads. *)
Module DbInfo.
Record t : Type := mk {
    period : Q;
    dt : Q;
    npts : Z;
    length : Q
  }.
End DbInfo.

(** The parsed request arguments ([FiniteSourceSeismogramsHandler.arguments]). *)
Module Args.
Record t : Type := mk {
    components : string;
    units : string;
    dt : option Q;
    kernelwidth : Z;
    label : option string;
    origintime : option UTCDateTime;
    starttime : option TimeSetting;
    endtime : option TimeSetting;
    receiverlatitude : option Q;
    receiverlongitude : option Q;
    networkcode : string;
    stationcode : string;
    network : option string;
    station : option string;
    format : string
  }.

Definition set_origintime (a : t) (v : option UTCDateTime) : t :=
    mk (components a) (units a) (dt a) (kernelwidth a) (label a)
       v (starttime a) (endtime a)
       (receiverlatitude a) (receiverlongitude a) (networkcode a)
       (stationcode a) (network a) (station a) (format a).

Definition set_starttime (a : t) (v : option TimeSetting) : t :=
    mk (components a) (units a) (dt a) (kernelwidth a) (label a)
       (origintime a) v (endtime a)
       (receiverlatitude a) (receiverlongitude a) (networkcode a)
       (stationcode a) (network a) (station a) (format a).

Definition set_endtime (a : t) (v : option TimeSetting) : t :=
    mk (components a) (units a) (dt a) (kernelwidth a) (label a)
       (origintime a) (starttime a) v
       (receiverlatitude a) (receiverlongitude a) (networkcode a)
       (stationcode a) (network a) (station a) (format a).
End Args.

(** One point source of a finite source. *)
Module PointSource.
Record t : Type := mk {
    latitude : Q;
    longitude : Q;
    depth_in_m : Q;
    time_shift : Q;
    sliprate : list Q;
    dt : Q
  }.
End PointSource.

(** The finite source.  [additional_time_shift] is assigned by the
    preparation before anything reads it; [origin_time] is assigned by the
    first extraction. *)
Module FiniteSource.
Record t : Type := mk {
    pointsources : list PointSource.t;
    time_shift : Q;
    additional_time_shift : Q;
    origin_time : option UTCDateTime;
    hypocenter : option (Q * Q * Q)
  }.

Definition set_pointsources (f : t) (v : list PointSource.t) : t :=
    mk v (time_shift f) (additional_time_shift f) (origin_time f)
       (hypocenter f).

Definition set_additional_time_shift (f : t) (v : Q) : t :=
    mk (pointsources f) (time_shift f) v (origin_time f) (hypocenter f).

Definition set_origin_time (f : t) (v : option UTCDateTime) : t :=
    mk (pointsources f) (time_shift f) (additional_time_shift f) v
       (hypocenter f).

Definition set_hypocenter (f : t) (v : option (Q * Q * Q)) : t :=
    mk (pointsources f) (time_shift f) (additional_time_shift f)
       (origin_time f) v.
End FiniteSource.

(** ** The handler's constants *)

Definition default_origin_time : UTCDateTime := UTCDateTime_ymd 1900 1 1.

Definition msg_parse : string :=
  "Could not parse the body contents. Incorrect USGS param file?".
Definition msg_extract : string :=
  "Could not extract seismogram. Make sure, the components are valid, and the depth settings are correct.".
Definition msg_starttime : string :=
  "The `starttime` must be before the seismogram ends.".
Definition msg_one_hour : string :=
  "The seismogram can start at the maximum one hour before the origin time.".
Definition msg_endtime : string :=
  "The end time of the seismograms lies outside the allowed range.".
Definition msg_no_seismograms : string :=
  "No seismograms found for the given phase relative offsets. This could either be due to the chosen phase not existing for the specific source-receiver geometry or arriving too late/with too large offsets if the database is not long enough.".

(** ** [parse_time_settings]

    The method assigns to [args] as it goes and may raise afterwards, so
    each part returns the arguments as they stand together with its
    result. *)

(** Lines 168-190: defaults, and floats made absolute. *)
Definition resolve_relative_times (args : Args.t) : Args.t * result unit :=
  (* if args.origintime is None *)
  let origintime :=
    match Args.origintime args with
    | None => default_origin_time
    | Some t => t
    end in
  let args := Args.set_origintime args (Some origintime) in
  (* if args.starttime is None *)
  let starttime :=
    match Args.starttime args with
    | None => TSAbsolute origintime
    | Some s => s
    end in
  (* if isinstance(args.starttime, float) *)
  let starttime :=
    match starttime with
    | TSFloat o => TSAbsolute (origintime + o)
    | s => s
    end in
  let args := Args.set_starttime args (Some starttime) in
  (* if isinstance(args.endtime, float) *)
  match Args.endtime args with
  | Some (TSFloat o) =>
      match starttime with
      | TSAbsolute s => (Args.set_endtime args (Some (TSAbsolute (s + o))), Ok tt)
      | TSPhase _ _ => (args, Ok tt)
      | TSFloat _ => (args, Raise AssertionError)
      end
  | _ => (args, Ok tt)
  end.

(** Lines 195-207: the three times the method returns. *)
Definition seismogram_times (db : DbInfo.t) (args : Args.t)
    (finite_source : FiniteSource.t)
  : result (UTCDateTime * UTCDateTime * UTCDateTime) :=
  match Args.origintime args with
  | None => Raise TypeError
  | Some origintime =>
      let time_of_first_sample :=
        origintime - FiniteSource.time_shift finite_source in
      let earliest_starttime :=
        time_of_first_sample
        + FiniteSource.additional_time_shift finite_source in
      let latest_endtime := time_of_first_sample + DbInfo.length db in
      latest_endtime <-
        match Args.dt args with
        | None => Ok latest_endtime
        | Some dt =>
            ratio <- py_div dt (DbInfo.dt db) ;;
            if negb (Qeq_bool (py_round ratio 6) 0)
            then
              let affected_area :=
                inject_Z (Args.kernelwidth args) * DbInfo.dt db in
              Ok (latest_endtime - affected_area)
            else Ok latest_endtime
        end ;;
      Ok (time_of_first_sample, earliest_starttime, latest_endtime)
  end.

(** Lines 209-232: the default end time and the sanity checks. *)
Definition check_times (args : Args.t)
    (earliest_starttime latest_endtime : UTCDateTime)
  : Args.t * result unit :=
  (* if args.endtime is None *)
  let args :=
    match Args.endtime args with
    | None => Args.set_endtime args (Some (TSAbsolute latest_endtime))
    | Some _ => args
    end in
  let start_check : result unit :=
    match Args.starttime args with
    | Some (TSAbsolute starttime) =>
        if Qle_bool latest_endtime starttime
        then Raise (HTTPError 400 msg_starttime)
        else if Qlt_bool starttime (earliest_starttime - 3600)
        then Raise (HTTPError 400 msg_one_hour)
        else Ok tt
    | _ => Ok tt
    end in
  let end_check : result unit :=
    match Args.endtime args with
    | Some (TSAbsolute endtime) =>
        if negb (Qle_bool earliest_starttime endtime
                 && Qle_bool endtime latest_endtime)
        then Raise (HTTPError 400 msg_endtime)
        else Ok tt
    | _ => Ok tt
    end in
  (args, _ <- start_check ;; end_check).

Definition parse_time_settings (db : DbInfo.t) (args : Args.t)
    (finite_source : FiniteSource.t)
  : Args.t * result (UTCDateTime * UTCDateTime * UTCDateTime) :=
  let '(args, r) := resolve_relative_times args in
  match r with
  | Raise e => (args, Raise e)
  | Ok _ =>
      match seismogram_times db args finite_source with
      | Raise e => (args, Raise e)
      | Ok (time_of_first_sample, earliest_starttime, latest_endtime) =>
          let '(args, r) :=
            check_times args earliest_starttime latest_endtime in
          (args,
           _ <- r ;;
           Ok (time_of_first_sample, earliest_starttime, latest_endtime))
      end
  end.

(** ** Preparation of the finite source *)

(** The class [FiniteSource] and the signal processing it calls are not
    part of this file.  The kernels are an interface: what the parser
    returns ([None] when it raises), the low-pass filter of one series,
    the resampling of one series and the choice of the hypocentre.  The
    resampling kernel returns the number of samples it is asked for. *)
Class SourceKernels : Type := {
  from_usgs_param_file :
    string -> Z -> Q -> Q -> option FiniteSource.t;
  lowpass : Q -> Q -> list Q -> list Q;
  resample : Q -> Q -> Z -> list Q -> list Q;
  locate_hypocenter : list PointSource.t -> Q * Q * Q;
  resample_length :
    forall (dt dt' : Q) (nsamp : Z) (s : list Q),
      List.length (resample dt dt' nsamp s) = Z.to_nat nsamp
}.

Section Preparation.
Context {kernels : SourceKernels}.

  (** Modelled from the spec: [FiniteSource.lp_sliprate], absent from the
      sources; it low-pass filters every slip-rate series and touches
      nothing else. *)
Definition lp_sliprate (freq : Q) (finite_source : FiniteSource.t)
    : FiniteSource.t :=
    FiniteSource.set_pointsources finite_source
      (map (fun source =>
              PointSource.mk
                (PointSource.latitude source) (PointSource.longitude source)
                (PointSource.depth_in_m source)
                (PointSource.time_shift source)
                (lowpass freq (PointSource.dt source)
                   (PointSource.sliprate source))
                (PointSource.dt source))
           (FiniteSource.pointsources finite_source)).

  (** Modelled from the spec: [FiniteSource.resample_sliprate], absent from
      the sources; it resamples every slip-rate series to the sample
      interval [dt] and to [nsamp] samples. *)
Definition resample_sliprate (dt : Q) (nsamp : Z)
      (finite_source : FiniteSource.t) : FiniteSource.t :=
    FiniteSource.set_pointsources finite_source
      (map (fun source =>
              PointSource.mk
                (PointSource.latitude source) (PointSource.longitude source)
                (PointSource.depth_in_m source)
                (PointSource.time_shift source)
                (resample (PointSource.dt source) dt nsamp
                   (PointSource.sliprate source))
                dt)
           (FiniteSource.pointsources finite_source)).

  (** Modelled from the spec: [FiniteSource.find_hypocenter], absent from
      the sources; it attaches the hypocentral coordinates to the model. *)
Definition find_hypocenter (finite_source : FiniteSource.t)
    : FiniteSource.t :=
    FiniteSource.set_hypocenter finite_source
      (Some (locate_hypocenter (FiniteSource.pointsources finite_source))).

  (** Lines 97-99: the loop over the point sources. *)
Definition pad_pointsources (zeros : list Q) (shift : Q)
      (pointsources : list PointSource.t) : list PointSource.t :=
    map (fun source =>
           PointSource.mk
             (PointSource.latitude source) (PointSource.longitude source)
             (PointSource.depth_in_m source)
             (PointSource.time_shift source + shift)
             (zeros ++ PointSource.sliprate source ++ zeros)
             (PointSource.dt source))
        pointsources.

  (** The quotient [2 * dominant_period / db_info.dt] of line 94, as the
    float operations give it on the floats that the two fields hold. *)
Definition padding_quotient (db_info : DbInfo.t) : result float64 :=
    float_div (float_mul 2 (float_value (DbInfo.period db_info)))
      (float_value (DbInfo.dt db_info)).

(** [samples] of line 94. *)
Definition padding_samples (db_info : DbInfo.t) : result Z :=
    ratio <- padding_quotient db_info ;;
    ceiling <- math_ceil ratio ;;
    Ok (ceiling + 1)%Z.

  (** The task runs in a worker: [Ok] is what it hands to its callback (an
      exception or the prepared source), [Raise] an exception that escapes
      the task. *)
Definition _parse_and_resample_finite_source (body : string)
      (db_info : DbInfo.t) : result (exn + FiniteSource.t) :=
    match from_usgs_param_file body 10000 (1 # 10) 1 with
    | None => Ok (inl (HTTPError 400 msg_parse))
    | Some finite_source =>
        let dominant_period := DbInfo.period db_info in
        samples <- padding_samples db_info ;;
        zeros <- np_zeros samples ;;
        let shift := inject_Z samples * DbInfo.dt db_info in
        let finite_source :=
          FiniteSource.set_pointsources finite_source
            (pad_pointsources zeros shift
               (FiniteSource.pointsources finite_source)) in
        let finite_source :=
          FiniteSource.set_additional_time_shift finite_source shift in
        freq <- py_div 1 dominant_period ;;
        let finite_source := lp_sliprate freq finite_source in
        let finite_source :=
          resample_sliprate (DbInfo.dt db_info)
            (DbInfo.npts db_info + 2 * samples) finite_source in
        let finite_source := find_hypocenter finite_source in
        Ok (inr finite_source)
    end.
End Preparation.

(** ** The receiver loop *)

Module Receiver.
Record t : Type := mk {
    latitude : Q;
    longitude : Q;
    network : string;
    station : string
  }.
End Receiver.

Module Trace.
Record t : Type := mk {
    channel : string;
    starttime : UTCDateTime;
    data : list Q
  }.

Definition set_starttime (tr : t) (v : UTCDateTime) : t :=
    mk (channel tr) v (data tr).
End Trace.

(** What an extraction task hands to its callback: an exception, a list
    of named SAC files, or MiniSEED bytes. *)
Inductive Response : Type :=
| RException (e : exn)
| RFiles (files : list (string * string))
| RData (data : string).

(** The two places of an iteration that read [self.connection_closed]. *)
Inductive CheckPoint : Type := BeforeDispatch | AfterResult.

(** What the handler does that can be seen from outside. *)
Inductive Event : Type :=
| ReadClosed (i : nat) (p : CheckPoint)
| Dispatch (receiver : Receiver.t)
| Write (data : string)
| Flush
| Finish.

(** The collaborators of the loop: the receivers of a request, the phase
    relative times of a receiver ([None] when there is no window), the
    database, the writer of the waveforms, the bytes a zip file produces
    for an entry and for its end, and the value of
    [self.connection_closed] at each read (the flag is set from outside,
    by [on_connection_close]). *)
Class Collaborators : Type := {
  get_receivers : Args.t -> list Receiver.t;
  get_phase_relative_times :
    Args.t -> FiniteSource.t -> Receiver.t -> UTCDateTime -> UTCDateTime ->
    option (UTCDateTime * UTCDateTime);
  get_seismograms_finite_source :
    FiniteSource.t -> Receiver.t -> list Ascii.ascii -> string ->
    option Q -> Z -> exn + list Trace.t;
  _validate_and_write_waveforms :
    list Trace.t -> UTCDateTime -> UTCDateTime -> FiniteSource.t ->
    Receiver.t -> option string -> string -> Response;
  zip_entry : string -> string -> string;
  zip_end : list string -> string;
  connection_closed : nat -> CheckPoint -> bool
}.

(** The locals of [post] that change in the loop, the finite source the
    tasks share, and the log of what the handler did. *)
Module Post.
Record t : Type := mk {
    finite_source : FiniteSource.t;
    count : nat;
    zip_names : list string;
    buf : list string;
    log : list Event
  }.

Definition set_finite_source (h : t) (v : FiniteSource.t) : t :=
    mk v (count h) (zip_names h) (buf h) (log h).

Definition emit (h : t) (e : Event) : t :=
    mk (finite_source h) (count h) (zip_names h) (buf h) (log h ++ [e]).

Definition incr_count (h : t) : t :=
    mk (finite_source h) (S (count h)) (zip_names h) (buf h) (log h).

  (** [zip_file.writestr(filename, content)]: the entry goes to [buf]. *)
Definition writestr {c : Collaborators} (h : t)
      (file : string * string) : t :=
    mk (finite_source h) (count h) (zip_names h ++ [fst file])
       (buf h ++ [zip_entry (fst file) (snd file)]) (log h).

  (** [zip_file.close()]. *)
Definition close_zip {c : Collaborators} (h : t) : t :=
    mk (finite_source h) (count h) (zip_names h)
       (buf h ++ [zip_end (zip_names h)]) (log h).

  (** [for data in buf: self.write(data)]: the queue is emptied. *)
Definition drain (h : t) : t :=
    mk (finite_source h) (count h) (zip_names h) []
       (log h ++ map Write (buf h)).
End Post.

(** How the loop, or an iteration, ends. *)
Inductive Control : Type :=
| Completed
| Returned
| Raised (e : exn).

(** The bytes handed to [self.write], in order. *)
Fixpoint written (l : list Event) : list string :=
  match l with
  | [] => []
  | Write data :: l => data :: written l
  | _ :: l => written l
  end.

(** The receivers whose extraction was dispatched, in order. *)
Fixpoint dispatched (l : list Event) : list Receiver.t :=
  match l with
  | [] => []
  | Dispatch r :: l => r :: dispatched l
  | _ :: l => dispatched l
  end.

Section Loop.
Context {c : Collaborators}.

  (** Lines 49-68. *)
Definition _get_finite_source (finite_source : FiniteSource.t)
      (receiver : Receiver.t) (components : list Ascii.ascii)
      (units : string) (dt : option Q) (kernelwidth : Z)
      (starttime endtime time_of_first_sample : UTCDateTime)
      (format : string) (label : option string)
    : FiniteSource.t * Response :=
    match get_seismograms_finite_source finite_source receiver components
            units dt kernelwidth with
    | inl _ => (finite_source, RException (HTTPError 400 msg_extract))
    | inr st =>
        let st :=
          map (fun tr => Trace.set_starttime tr time_of_first_sample) st in
        let finite_source :=
          FiniteSource.set_origin_time finite_source
            (Some (time_of_first_sample
                   + FiniteSource.additional_time_shift finite_source)) in
        (finite_source,
         _validate_and_write_waveforms st starttime endtime finite_source
           receiver label format)
    end.

  (** [self.flush(); self.finish(); return] *)
Definition stop (h : Post.t) : Post.t * Control :=
    (Post.emit (Post.emit h Flush) Finish, Returned).

Variable args : Args.t.
Variables time_of_first_sample min_starttime max_endtime : UTCDateTime.

  (** Lines 311-334: what follows the return of the task. *)
Definition handle_response (h : Post.t) (response : Response)
    : Post.t * Control :=
    match response with
    | RException e => (h, Raised e)
    | RFiles files =>
        if String.eqb (Args.format args) "saczip"
        then
          let h := fold_left Post.writestr files h in
          let h := Post.drain h in
          (Post.incr_count (Post.emit h Flush), Completed)
        else (h, Raised AssertionError)
    | RData data =>
        (Post.incr_count (Post.emit (Post.emit h (Write data)) Flush),
         Completed)
    end.

  (** Lines 276-334: the loop, from the receiver of index [i] on. *)
Fixpoint receiver_loop (i : nat) (receivers : list Receiver.t)
      (h : Post.t) : Post.t * Control :=
    match receivers with
    | [] => (h, Completed)
    | receiver :: rest =>
        let h := Post.emit h (ReadClosed i BeforeDispatch) in
        if connection_closed i BeforeDispatch then stop h
        else
          match get_phase_relative_times args (Post.finite_source h)
                  receiver min_starttime max_endtime with
          | None => receiver_loop (S i) rest h
          | Some (starttime, endtime) =>
              let h := Post.emit h (Dispatch receiver) in
              let '(finite_source, response) :=
                _get_finite_source (Post.finite_source h) receiver
                  (list_ascii_of_string (Args.components args))
                  (Args.units args) (Args.dt args) (Args.kernelwidth args)
                  starttime endtime time_of_first_sample
                  (Args.format args) (Args.label args) in
              let h := Post.set_finite_source h finite_source in
              let h := Post.emit h (ReadClosed i AfterResult) in
              if connection_closed i AfterResult then stop h
              else
                match handle_response h response with
                | (h, Completed) => receiver_loop (S i) rest h
                | stopped => stopped
                end
          end
    end.
End Loop.

(** How a request ends: the response was finished after the loop, the
    handler returned early on a closed connection, an exception was
    raised, or a task died before calling back. *)
Inductive Outcome : Type :=
| Finished
| Cancelled
| Failed (e : exn)
| TaskDied (e : exn).

Section PostHandler.
Context {kernels : SourceKernels} {c : Collaborators}.

  (** Lines 272-353, once the source and the times are there. *)
Definition stream_receivers (args : Args.t)
      (finite_source : FiniteSource.t)
      (time_of_first_sample min_starttime max_endtime : UTCDateTime)
    : Post.t * Outcome :=
    let receivers := get_receivers args in
    let h := Post.mk finite_source 0 [] [] [] in
    match receiver_loop args time_of_first_sample min_starttime max_endtime
            0 receivers h with
    | (h, Returned) => (h, Cancelled)
    | (h, Raised e) => (h, Failed e)
    | (h, Completed) =>
        if Nat.eqb (Post.count h) 0
        then (h, Failed (HTTPError 400 msg_no_seismograms))
        else
          let h :=
            if String.eqb (Args.format args) "saczip"
            then Post.drain (Post.close_zip h)
            else h in
          (Post.emit h Finish, Finished)
    end.

  (** [post], from the parsed arguments and the body of the request. *)
Definition post (db : DbInfo.t) (args : Args.t) (body : string)
    : option Post.t * Outcome :=
    match _parse_and_resample_finite_source body db with
    | Raise e => (None, TaskDied e)
    | Ok (inl e) => (None, Failed e)
    | Ok (inr finite_source) =>
        match parse_time_settings db args finite_source with
        | (_, Raise e) => (None, Failed e)
        | (args, Ok (time_of_first_sample, min_starttime, max_endtime)) =>
            let '(h, o) :=
              stream_receivers args finite_source time_of_first_sample
                min_starttime max_endtime in
            (Some h, o)
        end
    end.
End PostHandler.

(** The origin time once line 169 has run. *)
Definition resolved_origintime (args : Args.t) : UTCDateTime :=
  match Args.origintime args with
  | Some t => t
  | None => default_origin_time
  end.

(** The reads of [self.connection_closed], in order. *)
Fixpoint reads (l : list Event) : list (nat * CheckPoint) :=
  match l with
  | [] => []
  | ReadClosed i p :: l => (i, p) :: reads l
  | _ :: l => reads l
  end.

(** What lines 214-225 ask of an absolute start time. *)
Definition start_allowed (args : Args.t)
    (earliest_starttime latest_endtime : UTCDateTime) : Prop :=
  match Args.starttime args with
  | Some (TSAbsolute s) => s < latest_endtime /\ earliest_starttime - 3600 <= s
  | _ => True
  end.

(** What lines 209-232 ask of the end time: an absolute one lies in the
    window, and an unset one stands for the latest end time. *)
Definition end_allowed (args : Args.t)
    (earliest_starttime latest_endtime : UTCDateTime) : Prop :=
  match Args.endtime args with
  | Some (TSAbsolute e) => earliest_starttime <= e /\ e <= latest_endtime
  | None => earliest_starttime <= latest_endtime
  | _ => True
  end.

(** ** A small database, request and source

    Concrete values on which the statements below are run. *)

Definition demo_db : DbInfo.t := DbInfo.mk 2 (1 # 10) 36001 3600.

(** A database whose sample interval is a binary64 number. *)
Definition demo_db_binary : DbInfo.t := DbInfo.mk 2 (1 # 4) 14401 3600.

Definition demo_args : Args.t :=
  Args.mk "ZNE" "displacement" None 12 None None None None
    None None "XX" "SYN" None None "saczip".

(** The same request with an origin time and with [dt] equal to the sample
    interval of [demo_db]. *)
Definition demo_args_native_dt : Args.t :=
  Args.mk "ZNE" "displacement" (Some (1 # 10)) 12 None (Some 0) None None
    None None "XX" "SYN" None None "saczip".

(** A request with the origin time 0 and the given start and end times. *)
Definition demo_request (starttime endtime : option TimeSetting) : Args.t :=
  Args.mk "ZNE" "displacement" None 12 None (Some 0) starttime endtime
    None None "XX" "SYN" None None "saczip".

(** A start time and an end time given as floats. *)
Definition demo_args_float : Args.t :=
  Args.mk "ZNE" "displacement" None 12 None (Some 0)
    (Some (TSFloat 5)) (Some (TSFloat 100))
    None None "XX" "SYN" None None "saczip".

(** A start time relative to a phase. *)
Definition demo_args_phase : Args.t :=
  Args.mk "ZNE" "displacement" None 12 None (Some 0)
    (Some (TSPhase "P" (-10))) (Some (TSFloat 100))
    None None "XX" "SYN" None None "saczip".

Definition demo_pointsources : list PointSource.t :=
  [ PointSource.mk 10 20 5000 0 [1; 2; 3] (1 # 10);
    PointSource.mk 11 21 6000 (3 # 2) [4; 5] (1 # 10) ].

Definition demo_parsed : FiniteSource.t :=
  FiniteSource.mk demo_pointsources 0 0 None None.

Definition demo_resample (dt dt' : Q) (nsamp : Z) (s : list Q) : list Q :=
  firstn (Z.to_nat nsamp) (s ++ repeat 0 (Z.to_nat nsamp)).

Definition demo_resample_length (dt dt' : Q) (nsamp : Z) (s : list Q)
  : List.length (demo_resample dt dt' nsamp s) = Z.to_nat nsamp :=
  eq_trans
    (length_firstn (Z.to_nat nsamp) (s ++ repeat 0 (Z.to_nat nsamp)))
    (Nat.min_l _ _
       (eq_ind_r (fun n => (Z.to_nat nsamp <= n)%nat)
          (eq_ind_r (fun n => (Z.to_nat nsamp <= List.length s + n)%nat)
             (Nat.le_add_l _ _)
             (repeat_length 0 (Z.to_nat nsamp)))
          (length_app s (repeat 0 (Z.to_nat nsamp))))).

Definition demo_kernels : SourceKernels := {|
  from_usgs_param_file body npts dt trise_min :=
    if String.eqb body "" then None else Some demo_parsed;
  lowpass freq dt s := s;
  resample := demo_resample;
  locate_hypocenter pointsources := (10, 20, 5000);
  resample_length := demo_resample_length
|}.

Definition demo_receivers : list Receiver.t :=
  [ Receiver.mk 10 20 "XX" "A";
    Receiver.mk 30 40 "XX" "B";
    Receiver.mk 50 60 "XX" "C" ].

(** Collaborators for the examples: [no_window] and [db_fails] tell, by
    the station, which receivers have no window and for which the
    database raises; [closed] is the value of the flag at each read. *)
Definition demo_collaborators (no_window db_fails : string -> bool)
    (closed : nat -> CheckPoint -> bool) : Collaborators := {|
  get_receivers args := demo_receivers;
  get_phase_relative_times args finite_source receiver mn mx :=
    if no_window (Receiver.station receiver) then None else Some (mn, mx);
  get_seismograms_finite_source finite_source receiver components units
      dt kernelwidth :=
    if db_fails (Receiver.station receiver)
    then inl (OtherError "depth out of range")
    else inr [Trace.mk "Z" 0 [1; 2]];
  _validate_and_write_waveforms st starttime endtime finite_source
      receiver label format :=
    if String.eqb format "saczip"
    then RFiles [(Receiver.station receiver, "sac"%string)]
    else RData (Receiver.station receiver);
  zip_entry filename content := (filename ++ content)%string;
  zip_end names := String.concat "," names;
  connection_closed := closed
|}.

Definition never (s : string) : bool := false.
Definition always (s : string) : bool := true.
Definition stays_open (i : nat) (p : CheckPoint) : bool := false.

(** The client goes away while the task of the receiver [k] runs. *)
Definition closes_during (k : nat) (i : nat) (p : CheckPoint) : bool :=
  match p with
  | BeforeDispatch => Nat.ltb k i
  | AfterResult => Nat.leb k i
  end.

(** A prepared source for the examples. *)
Definition demo_source : FiniteSource.t :=
  FiniteSource.mk demo_pointsources 0 (41 # 10) None None.

(** ** Measures of a log, and other notions the statements use *)

(** The calls of [self.finish()]. *)
Fixpoint finishes (l : list Event) : nat :=
  match l with
  | [] => 0
  | Finish :: l => S (finishes l)
  | _ :: l => finishes l
  end.

(** The calls of [self.flush()]. *)
Fixpoint flushes (l : list Event) : nat :=
  match l with
  | [] => 0
  | Flush :: l => S (flushes l)
  | _ :: l => flushes l
  end.

(** [l1] is [l2] with some elements left out, the order kept. *)
Inductive subsequence {A : Type} : list A -> list A -> Prop :=
| subsequence_nil : subsequence [] []
| subsequence_skip (x : A) (l1 l2 : list A) :
    subsequence l1 l2 -> subsequence l1 (x :: l2)
| subsequence_take (x : A) (l1 l2 : list A) :
    subsequence l1 l2 -> subsequence (x :: l1) (x :: l2).

(** The sum of a series. *)
Definition Qsum (l : list Q) : Q := fold_right Qplus 0 l.

(** A request that gives no parameter: the defaults of the table of
    lines 121-147. *)
Definition default_args : Args.t :=
  Args.mk "ZNE" "displacement" None 12 None None None None
    None None "XX" "SYN" None None "saczip".

(** Arguments on which lines 168-190 have nothing left to do. *)
Definition settings_resolved (a : Args.t) : Prop :=
  Args.origintime a <> None
  /\ match Args.starttime a with
     | Some (TSAbsolute _) =>
         match Args.endtime a with
         | Some (TSFloat _) => False
         | _ => True
         end
     | Some (TSPhase _ _) => True
     | _ => False
     end.

(** The collaborators of the examples with another list of receivers
    and another writer; every receiver has a window, the database never
    raises and the connection stays open. *)
Definition demo_collaborators_with (receivers : list Receiver.t)
    (writer : Receiver.t -> string -> Response) : Collaborators := {|
  get_receivers args := receivers;
  get_phase_relative_times args finite_source receiver mn mx :=
    Some (mn, mx);
  get_seismograms_finite_source finite_source receiver components units
      dt kernelwidth := inr [Trace.mk "Z" 0 [1; 2]];
  _validate_and_write_waveforms st starttime endtime finite_source
      receiver label format := writer receiver format;
  zip_entry filename content := (filename ++ content)%string;
  zip_end names := String.concat "," names;
  connection_closed := stays_open
|}.

(** A writer that hands back a list of files whatever the format. *)
Definition files_writer (receiver : Receiver.t) (format : string)
  : Response :=
  RFiles [(Receiver.station receiver, "sac"%string)].

(** A request for MiniSEED. *)
Definition demo_args_miniseed : Args.t :=
  Args.mk "ZNE" "displacement" None 12 None (Some 0) None None
    None None "XX" "SYN" None None "miniseed".

(** * Properties *)

(** ** Arithmetic of the embedding *)

Lemma Qlt_bool_iff (a b : Q) : Qlt_bool a b = true <-> a < b.
Proof.
  unfold Qlt_bool. rewrite negb_true_iff.
  split.
  - intros H. apply Qnot_le_lt. intros L. apply Qle_bool_iff in L. congruence.
  - intros H. destruct (Qle_bool b a) eqn:E; [|reflexivity].
    apply Qle_bool_iff in E. lra.
Qed.

(** An integer between two integer bounds, read through [inject_Z]. *)
Lemma inject_Z_between (f lo hi : Z) :
  inject_Z lo <= inject_Z f -> inject_Z f <= inject_Z hi ->
  (lo <= f <= hi)%Z.
Proof. rewrite <- !Zle_Qle. lia. Qed.

Lemma round_half_even_zero (x : Q) :
  round_half_even x = 0%Z <-> - (1 # 2) <= x /\ x <= 1 # 2.
Proof.
  unfold round_half_even.
  pose proof (Qfloor_le x) as Hlo.
  pose proof (Qlt_floor x) as Hhi.
  rewrite inject_Z_plus in Hhi. change (inject_Z 1) with 1 in Hhi.
  generalize dependent (Qfloor x). intros f Hlo Hhi.
  assert (Hf : forall lo hi : Z,
             inject_Z lo <= inject_Z f -> inject_Z f <= inject_Z hi ->
             (lo <= f <= hi)%Z) by (intros; now apply inject_Z_between).
  assert (Hm1 : f = (-1)%Z -> inject_Z f == -1) by (intros ->; reflexivity).
  assert (H0 : f = 0%Z -> inject_Z f == 0) by (intros ->; reflexivity).
  remember (inject_Z f) as qf eqn:Eq.
  assert (Hb : forall lo hi : Z,
             inject_Z lo <= qf -> qf <= inject_Z hi -> (lo <= f <= hi)%Z)
    by (intros lo hi; subst qf; apply Hf).
  assert (Hs : forall lo hi : Z,
             inject_Z lo < qf -> qf < inject_Z hi -> (lo < f < hi)%Z)
    by (intros lo hi; subst qf; rewrite <- !Zlt_Qlt; lia).
  clear Hf Eq.
  destruct (Qcompare (x - qf) (1 # 2)) eqn:C.
  - apply Qeq_alt in C.
    destruct (Z.even f) eqn:Ev.
    + split.
      * intros E. specialize (H0 E). lra.
      * intros [A B].
        destruct (Hb (-1)%Z 0%Z) as [? ?];
          [change (inject_Z (-1)) with (-1 # 1); lra
          |change (inject_Z 0) with 0; lra|].
        assert (f = (-1)%Z \/ f = 0%Z) as [->| ->] by lia;
          [discriminate Ev | reflexivity].
    + split.
      * intros E. assert (F : f = (-1)%Z) by lia. specialize (Hm1 F). lra.
      * intros [A B].
        destruct (Hb (-1)%Z 0%Z) as [? ?];
          [change (inject_Z (-1)) with (-1 # 1); lra
          |change (inject_Z 0) with 0; lra|].
        assert (f = (-1)%Z \/ f = 0%Z) as [->| ->] by lia;
          [reflexivity | discriminate Ev].
  - apply Qlt_alt in C.
    split.
    + intros E. specialize (H0 E). lra.
    + intros [A B].
      destruct (Hs (-1)%Z 1%Z) as [? ?];
        [change (inject_Z (-1)) with (-1 # 1); lra
        |change (inject_Z 1) with 1; lra|lia].
  - apply Qgt_alt in C.
    split.
    + intros E. assert (F : f = (-1)%Z) by lia. specialize (Hm1 F). lra.
    + intros [A B].
      destruct (Hs (-2)%Z 0%Z) as [? ?];
        [change (inject_Z (-2)) with (-2 # 1); lra
        |change (inject_Z 0) with 0; lra|lia].
Qed.

Lemma Qle_bool_false (a b : Q) : Qle_bool a b = false <-> b < a.
Proof.
  split.
  - intros H. apply Qnot_le_lt. intros L. apply Qle_bool_iff in L. congruence.
  - intros H. destruct (Qle_bool a b) eqn:E; [|reflexivity].
    apply Qle_bool_iff in E. lra.
Qed.

Lemma py_div_ok (a b : Q) : ~ b == 0 -> py_div a b = Ok (a / b).
Proof.
  intros H. unfold py_div.
  destruct (Qeq_bool b 0) eqn:E; [|reflexivity].
  apply Qeq_bool_iff in E. contradiction.
Qed.

Lemma py_div_inv (a b q : Q) : py_div a b = Ok q -> ~ b == 0 /\ q = a / b.
Proof.
  unfold py_div. destruct (Qeq_bool b 0) eqn:E; [discriminate|].
  intros [= <-]. split; [now apply Qeq_bool_neq|reflexivity].
Qed.

(** [round(x, 6) != 0] holds exactly when [x] is further than half a
    millionth from zero. *)
Lemma py_round6_nonzero (x : Q) :
  negb (Qeq_bool (py_round x 6) 0) = false
  <-> - (1 # 2) <= x * 1000000 /\ x * 1000000 <= 1 # 2.
Proof.
  rewrite negb_false_iff, Qeq_bool_iff.
  unfold py_round. change (inject_Z (10 ^ Z.of_N 6)) with 1000000.
  rewrite <- round_half_even_zero.
  split.
  - generalize (round_half_even (x * 1000000)). intros z H.
    unfold Qeq in H. cbn in H. lia.
  - intros ->. reflexivity.
Qed.

(** ** Binary64 *)

Lemma round_half_even_error (t : Q) :
  t - (1 # 2) <= inject_Z (round_half_even t)
  /\ inject_Z (round_half_even t) <= t + (1 # 2).
Proof.
  unfold round_half_even.
  pose proof (Qfloor_le t) as Hlo.
  pose proof (Qlt_floor t) as Hhi.
  rewrite inject_Z_plus in Hhi. change (inject_Z 1) with 1 in Hhi.
  destruct (Qcompare (t - inject_Z (Qfloor t)) (1 # 2)) eqn:C.
  - apply Qeq_alt in C.
    destruct (Z.even (Qfloor t)).
    + split; lra.
    + rewrite inject_Z_plus. change (inject_Z 1) with 1. split; lra.
  - apply Qlt_alt in C. split; lra.
  - apply Qgt_alt in C. rewrite inject_Z_plus. change (inject_Z 1) with 1.
    split; lra.
Qed.

Lemma round_half_even_nonneg (t : Q) :
  0 <= t -> (0 <= round_half_even t)%Z.
Proof.
  intros Ht. unfold round_half_even.
  assert (H : (0 <= Qfloor t)%Z).
  { change 0%Z with (Qfloor 0). now apply Qfloor_resp_le. }
  destruct (Qcompare (t - inject_Z (Qfloor t)) (1 # 2));
    [destruct (Z.even (Qfloor t))| |]; lia.
Qed.

Lemma pow2_pos (z : Z) : 0 < pow2 z.
Proof. apply Qpower_0_lt. reflexivity. Qed.

Lemma pow2_nat (z : Z) : (0 <= z)%Z -> pow2 z == inject_Z (2 ^ z).
Proof. intros H. unfold pow2. now rewrite Zpower_Qpower. Qed.

(** [Qlog2 a] is not above the binary logarithm of [a]. *)
Lemma Qlog2_lower (a : Q) : 0 < a -> pow2 (Qlog2 a) <= a.
Proof.
  intros Ha. unfold Qlog2.
  set (ln := Z.log2 (Qnum a)). set (ld := Z.log2 (Z.pos (Qden a))).
  destruct (Qle_bool (pow2 (ln - ld)) a) eqn:T.
  - now apply Qle_bool_iff in T.
  - assert (Hn : (0 < Qnum a)%Z).
    { destruct a as [n d]. unfold Qlt in Ha. cbn in *. lia. }
    destruct (Z.log2_spec (Qnum a) Hn) as [Hn1 _].
    destruct (Z.log2_spec (Z.pos (Qden a)) (Pos2Z.is_pos _)) as [_ Hd2].
    fold ln in Hn1. fold ld in Hd2.
    assert (Hln : (0 <= ln)%Z) by apply Z.log2_nonneg.
    assert (Hld : (0 <= ld)%Z) by apply Z.log2_nonneg.
    replace (ln - ld - 1)%Z with (ln - (ld + 1))%Z by lia.
    unfold pow2. rewrite Qpower_minus by discriminate.
    fold (pow2 ln). fold (pow2 (ld + 1)).
    rewrite (pow2_nat ln Hln), (pow2_nat (ld + 1)) by lia.
    apply Qle_shift_div_r.
    + change 0 with (inject_Z 0). rewrite <- Zlt_Qlt.
      apply Z.pow_pos_nonneg; lia.
    + assert (E : a == inject_Z (Qnum a) / inject_Z (Z.pos (Qden a))).
      { destruct a as [n d]. cbn. now rewrite Qmake_Qdiv. }
      rewrite E.
      assert (P1 : inject_Z (2 ^ ln) <= inject_Z (Qnum a))
        by now rewrite <- Zle_Qle.
      assert (P2 : inject_Z (Z.pos (Qden a)) <= inject_Z (2 ^ (ld + 1))).
      { rewrite <- Zle_Qle. unfold Z.succ in Hd2. lia. }
      assert (P3 : 0 < inject_Z (Z.pos (Qden a))).
      { change 0 with (inject_Z 0). now rewrite <- Zlt_Qlt. }
      assert (P4 : 0 < inject_Z (Qnum a)).
      { change 0 with (inject_Z 0). now rewrite <- Zlt_Qlt. }
      set (n := inject_Z (Qnum a)) in *.
      set (d := inject_Z (Z.pos (Qden a))) in *.
      apply Qle_trans with (n / d * d).
      * setoid_replace (n / d * d) with n by (field; lra). exact P1.
      * apply Qmult_le_l; [|exact P2].
        apply Qlt_shift_div_l; lra.
Qed.

Lemma Qlog2_below (a : Q) (z : Z) :
  0 < a -> a < pow2 z -> (Qlog2 a < z)%Z.
Proof.
  intros Ha Hz.
  apply (Qpower_lt_compat_l_inv 2); [|reflexivity].
  fold (pow2 (Qlog2 a)). fold (pow2 z).
  apply Qle_lt_trans with a; [now apply Qlog2_lower | exact Hz].
Qed.

(** A result that is not negative for an operand that is not. *)
Lemma binary64_nonneg (x y : Q) :
  0 <= x -> binary64 x = Finite y -> 0 <= y.
Proof.
  intros Hx. unfold binary64.
  destruct (Qeq_bool x 0); [intros [= <-]; lra|].
  cbv zeta.
  assert (Hs : Qlt_bool x 0 = false).
  { unfold Qlt_bool. apply negb_false_iff, Qle_bool_iff. exact Hx. }
  rewrite Hs.
  set (e := Z.max (Qlog2 (Qabs x) - 52) (-1074)).
  destruct (Qle_bool (pow2 1024) _); [discriminate|].
  intros [= <-].
  apply Qmult_le_0_compat; [|apply Qlt_le_weak, pow2_pos].
  change 0 with (inject_Z 0). rewrite <- Zle_Qle.
  apply round_half_even_nonneg.
  apply Qle_shift_div_l; [apply pow2_pos|].
  rewrite Qmult_0_l. apply Qabs_nonneg.
Qed.

Lemma float_value_nonneg (x : Q) : 0 <= x -> 0 <= float_value x.
Proof.
  intros Hx. unfold float_value.
  destruct (binary64 x) as [y|] eqn:E; [|exact Hx].
  exact (binary64_nonneg x y Hx E).
Qed.

Lemma float_value_zero (x : Q) : x == 0 -> float_value x = 0.
Proof.
  intros Hx. apply Qeq_bool_iff in Hx.
  unfold float_value, binary64. now rewrite Hx.
Qed.

(** Below [2^53] a binary64 operation is off by half a unit at most. *)
Lemma binary64_small (x : Q) :
  0 < x -> x < pow2 53 ->
  exists y, binary64 x = Finite y /\ x - (1 # 2) <= y /\ y <= x + (1 # 2).
Proof.
  intros Hx Hb. unfold binary64.
  destruct (Qeq_bool x 0) eqn:E0.
  { apply Qeq_bool_iff in E0. lra. }
  cbv zeta.
  assert (Hs : Qlt_bool x 0 = false).
  { unfold Qlt_bool. apply negb_false_iff, Qle_bool_iff. lra. }
  rewrite Hs.
  assert (Ha : Qabs x == x) by (apply Qabs_pos; lra).
  assert (He : (Z.max (Qlog2 (Qabs x) - 52) (-1074) <= 0)%Z).
  { assert (Qlog2 (Qabs x) < 53)%Z; [|lia].
    apply Qlog2_below; rewrite Ha; assumption. }
  set (e := Z.max (Qlog2 (Qabs x) - 52) (-1074)) in *.
  assert (Hp : 0 < pow2 e) by apply pow2_pos.
  assert (Hp1 : pow2 e <= 1).
  { change 1 with (pow2 0). unfold pow2.
    apply Qpower_le_compat_l; [exact He | discriminate]. }
  destruct (round_half_even_error (Qabs x / pow2 e)) as [R1 R2].
  set (m := inject_Z (round_half_even (Qabs x / pow2 e))) in *.
  assert (Hx' : Qabs x / pow2 e * pow2 e == x).
  { rewrite Ha. field. lra. }
  assert (B1 : (Qabs x / pow2 e - (1 # 2)) * pow2 e <= m * pow2 e)
    by (apply Qmult_le_compat_r; lra).
  assert (B2 : m * pow2 e <= (Qabs x / pow2 e + (1 # 2)) * pow2 e)
    by (apply Qmult_le_compat_r; lra).
  assert (C1 : x - (1 # 2) <= m * pow2 e) by lra.
  assert (C2 : m * pow2 e <= x + (1 # 2)) by lra.
  assert (Hbig : pow2 53 + (1 # 2) < pow2 1024) by reflexivity.
  destruct (Qle_bool (pow2 1024) (m * pow2 e)) eqn:O.
  - apply Qle_bool_iff in O. lra.
  - exists (m * pow2 e). auto.
Qed.

(** Line 94 on the floats 1.5 and 0.3, where the exact quotient is just
    above 10 and the float quotient is 10, and on 2.1 and 0.7: with the
    fields given by their exact values, and written in decimals. *)
Example padding_samples_on_floats :
  padding_samples
    (DbInfo.mk (3 # 2) (5404319552844595 # 18014398509481984) 0 0)
  = Ok 11%Z
  /\ padding_samples
       (DbInfo.mk (4728779608739021 # 2251799813685248)
          (3152519739159347 # 4503599627370496) 0 0)
     = Ok 8%Z
  /\ padding_samples (DbInfo.mk (3 # 2) (3 # 10) 0 0) = Ok 11%Z
  /\ padding_samples (DbInfo.mk (21 # 10) (7 # 10) 0 0) = Ok 8%Z.
Proof. repeat split; vm_compute; reflexivity. Qed.

(** ** The origin time of the handler *)

Lemma default_origin_time_is_1900 :
  default_origin_time = inject_Z (-2208988800).
Proof. reflexivity. Qed.

(** ** [parse_time_settings] *)

Lemma resolve_relative_times_ok (args : Args.t) :
  snd (resolve_relative_times args) = Ok tt.
Proof.
  unfold resolve_relative_times. cbn.
  destruct (Args.endtime args) as [[o| |]|]; cbn; try reflexivity.
  destruct (Args.starttime args) as [[| |]|]; reflexivity.
Qed.

Lemma resolve_relative_times_origintime (args : Args.t) :
  Args.origintime (fst (resolve_relative_times args))
  = Some (resolved_origintime args).
Proof.
  unfold resolve_relative_times, resolved_origintime. cbn.
  destruct (Args.endtime args) as [[o| |]|]; cbn; try reflexivity.
  destruct (Args.starttime args) as [[| |]|]; reflexivity.
Qed.

Lemma resolve_relative_times_dt (args : Args.t) :
  Args.dt (fst (resolve_relative_times args)) = Args.dt args
  /\ Args.kernelwidth (fst (resolve_relative_times args))
     = Args.kernelwidth args.
Proof.
  unfold resolve_relative_times. cbn.
  destruct (Args.endtime args) as [[o| |]|]; cbn; try (split; reflexivity).
  destruct (Args.starttime args) as [[| |]|]; split; reflexivity.
Qed.

(** The method as the sequence of its three parts. *)
Lemma parse_time_settings_eq (db : DbInfo.t) (args : Args.t)
    (fs : FiniteSource.t) :
  parse_time_settings db args fs =
  let args1 := fst (resolve_relative_times args) in
  match seismogram_times db args1 fs with
  | Raise e => (args1, Raise e)
  | Ok (t, es, le) =>
      (fst (check_times args1 es le),
       _ <- snd (check_times args1 es le) ;; Ok (t, es, le))
  end.
Proof.
  unfold parse_time_settings.
  pose proof (resolve_relative_times_ok args) as H.
  destruct (resolve_relative_times args) as [args1 r]. cbn in *. subst r.
  destruct (seismogram_times db args1 fs) as [[[t es] le]|e]; [|reflexivity].
  destruct (check_times args1 es le); reflexivity.
Qed.

(** The first two times never depend on [dt]; the third is the only one
    that can fail to be computed. *)
Lemma seismogram_times_inv (db : DbInfo.t) (args : Args.t)
    (fs : FiniteSource.t) (t es le : UTCDateTime) :
  seismogram_times db args fs = Ok (t, es, le) ->
  exists origintime,
    Args.origintime args = Some origintime
    /\ t = origintime - FiniteSource.time_shift fs
    /\ es = t + FiniteSource.additional_time_shift fs.
Proof.
  unfold seismogram_times.
  destruct (Args.origintime args) as [o|]; [|discriminate].
  intros H. exists o.
  destruct (Args.dt args) as [dt|]; cbn in H.
  - destruct (py_div dt (DbInfo.dt db)); cbn in H; [|discriminate].
    destruct (negb _); injection H as <- <- _; auto.
  - injection H as <- <- _; auto.
Qed.

Lemma seismogram_times_total (db : DbInfo.t) (args : Args.t)
    (fs : FiniteSource.t) (origintime : UTCDateTime) :
  Args.origintime args = Some origintime ->
  ~ DbInfo.dt db == 0 ->
  exists le,
    seismogram_times db args fs =
    Ok (origintime - FiniteSource.time_shift fs,
        origintime - FiniteSource.time_shift fs
        + FiniteSource.additional_time_shift fs,
        le).
Proof.
  intros Ho Hdt. unfold seismogram_times. rewrite Ho.
  destruct (Args.dt args) as [dt|]; cbn.
  - rewrite (py_div_ok _ _ Hdt). cbn.
    destruct (negb _); eexists; reflexivity.
  - eexists; reflexivity.
Qed.

(** Without [dt] the seismogram ends with the database. *)
Lemma latest_endtime_without_dt (db : DbInfo.t) (args : Args.t)
    (fs : FiniteSource.t) (origintime : UTCDateTime) :
  Args.origintime args = Some origintime ->
  Args.dt args = None ->
  seismogram_times db args fs =
  Ok (origintime - FiniteSource.time_shift fs,
      origintime - FiniteSource.time_shift fs
      + FiniteSource.additional_time_shift fs,
      origintime - FiniteSource.time_shift fs + DbInfo.length db).
Proof.
  intros Ho Hdt. unfold seismogram_times. rewrite Ho, Hdt. reflexivity.
Qed.

(** With [dt], the margin is left out only when [dt] is within half a
    millionth of zero, relative to the sample interval of the database. *)
Lemma latest_endtime_with_dt (db : DbInfo.t) (args : Args.t)
    (fs : FiniteSource.t) (origintime dt : UTCDateTime) :
  Args.origintime args = Some origintime ->
  Args.dt args = Some dt ->
  ~ DbInfo.dt db == 0 ->
  let t := origintime - FiniteSource.time_shift fs in
  let ratio := dt / DbInfo.dt db in
  seismogram_times db args fs =
  Ok (t, t + FiniteSource.additional_time_shift fs,
      if Qle_bool (- (1 # 2)) (ratio * 1000000)
         && Qle_bool (ratio * 1000000) (1 # 2)
      then t + DbInfo.length db
      else t + DbInfo.length db
           - inject_Z (Args.kernelwidth args) * DbInfo.dt db).
Proof.
  intros Ho Hdt Hdb t ratio. unfold seismogram_times.
  rewrite Ho, Hdt. cbn. rewrite (py_div_ok _ _ Hdb). cbn.
  fold ratio. fold t.
  destruct (negb (Qeq_bool (py_round ratio 6) 0)) eqn:G.
  - destruct (Qle_bool (- (1 # 2)) (ratio * 1000000)
              && Qle_bool (ratio * 1000000) (1 # 2)) eqn:B; [|reflexivity].
    apply andb_true_iff in B. rewrite !Qle_bool_iff in B.
    apply py_round6_nonzero in B. congruence.
  - apply py_round6_nonzero in G.
    rewrite <- !Qle_bool_iff, <- andb_true_iff in G. now rewrite G.
Qed.

(** C1.  The margin [kernelwidth * db.info.dt] is subtracted from the
    latest end time when the requested [dt] is the sample interval of the
    database itself: the guard of line 205 compares the rounded ratio
    with 0, and the ratio of two equal intervals is 1. *)
Theorem margin_subtracted_at_native_dt (db : DbInfo.t) (args : Args.t)
    (fs : FiniteSource.t) (origintime : UTCDateTime) :
  Args.origintime args = Some origintime ->
  Args.dt args = Some (DbInfo.dt db) ->
  ~ DbInfo.dt db == 0 ->
  seismogram_times db args fs =
  Ok (origintime - FiniteSource.time_shift fs,
      origintime - FiniteSource.time_shift fs
      + FiniteSource.additional_time_shift fs,
      origintime - FiniteSource.time_shift fs + DbInfo.length db
      - inject_Z (Args.kernelwidth args) * DbInfo.dt db).
Proof.
  intros Ho Hdt Hdb.
  rewrite (latest_endtime_with_dt db args fs origintime _ Ho Hdt Hdb).
  cbv zeta.
  destruct (Qle_bool (- (1 # 2)) (DbInfo.dt db / DbInfo.dt db * 1000000)
            && Qle_bool (DbInfo.dt db / DbInfo.dt db * 1000000) (1 # 2))
    eqn:B; [|reflexivity].
  apply andb_true_iff in B. rewrite !Qle_bool_iff in B.
  destruct B as [_ B].
  assert (E : DbInfo.dt db / DbInfo.dt db == 1) by (field; assumption).
  rewrite E in B. lra.
Qed.

Lemma margin_subtracted_at_native_dt_witness :
  seismogram_times demo_db demo_args_native_dt demo_parsed
  = Ok (0 - 0, 0 - 0 + 0, 0 - 0 + 3600 - inject_Z 12 * (1 # 10)).
Proof.
  apply (margin_subtracted_at_native_dt demo_db demo_args_native_dt
           demo_parsed 0).
  - reflexivity.
  - reflexivity.
  - cbn. intros H. discriminate H.
Defined.

Lemma resolve_relative_times_starttime (args : Args.t) :
  Args.starttime (fst (resolve_relative_times args))
  = Some match Args.starttime args with
         | None => TSAbsolute (resolved_origintime args)
         | Some (TSFloat o) => TSAbsolute (resolved_origintime args + o)
         | Some s => s
         end.
Proof.
  unfold resolve_relative_times, resolved_origintime. cbn.
  destruct (Args.endtime args) as [[o| |]|];
    destruct (Args.starttime args) as [[| |]|]; reflexivity.
Qed.

Lemma resolve_relative_times_endtime (args : Args.t) :
  Args.endtime (fst (resolve_relative_times args))
  = match Args.endtime args with
    | Some (TSFloat o) =>
        match Args.starttime (fst (resolve_relative_times args)) with
        | Some (TSAbsolute s) => Some (TSAbsolute (s + o))
        | _ => Some (TSFloat o)
        end
    | e => e
    end.
Proof.
  rewrite resolve_relative_times_starttime.
  unfold resolve_relative_times, resolved_origintime. cbn.
  destruct (Args.endtime args) as [[o| |]|] eqn:E;
    destruct (Args.starttime args) as [[| |]|]; cbn;
    try reflexivity; exact E.
Qed.

Lemma check_times_fields (args : Args.t) (es le : UTCDateTime) :
  Args.origintime (fst (check_times args es le)) = Args.origintime args
  /\ Args.starttime (fst (check_times args es le)) = Args.starttime args
  /\ Args.endtime (fst (check_times args es le))
     = match Args.endtime args with
       | None => Some (TSAbsolute le)
       | Some e => Some e
       end.
Proof.
  unfold check_times. destruct args as [? ? ? ? ? ? ? e ? ? ? ? ? ? ?].
  destruct e; cbn; repeat split; reflexivity.
Qed.

(** The arguments as [parse_time_settings] leaves them, whether or not it
    raises: those of the first part, with the end time defaulted when the
    checks were reached. *)
Lemma parse_time_settings_args (db : DbInfo.t) (args : Args.t)
    (fs : FiniteSource.t) :
  let args1 := fst (resolve_relative_times args) in
  let args' := fst (parse_time_settings db args fs) in
  Args.origintime args' = Args.origintime args1
  /\ Args.starttime args' = Args.starttime args1
  /\ (Args.endtime args' = Args.endtime args1
      \/ Args.endtime args1 = None
         /\ exists t es le,
              seismogram_times db args1 fs = Ok (t, es, le)
              /\ Args.endtime args' = Some (TSAbsolute le)).
Proof.
  cbv zeta. rewrite parse_time_settings_eq. cbv zeta.
  destruct (seismogram_times db (fst (resolve_relative_times args)) fs)
    as [[[t es] le]|e]; cbn [fst]; [|auto].
  destruct (check_times_fields (fst (resolve_relative_times args)) es le)
    as (Ho & Hs & He).
  rewrite Ho, Hs, He. split; [reflexivity|]. split; [reflexivity|].
  destruct (Args.endtime (fst (resolve_relative_times args))); [auto|].
  right. split; [reflexivity|]. exists t, es, le. auto.
Qed.

(** C3.  The origin time defaults to 1900-01-01 and the start time to the
    origin time; a float start time [o] becomes the origin time plus [o];
    a float end time becomes the start time plus the offset when the
    start time is absolute, and stays a float when the start time is
    relative to a phase.  This holds of the arguments as the method leaves
    them, whether or not it raises afterwards. *)
Theorem time_settings_resolution (db : DbInfo.t) (args : Args.t)
    (fs : FiniteSource.t) :
  let args' := fst (parse_time_settings db args fs) in
  let T0 := resolved_origintime args in
  (Args.origintime args = None -> T0 = UTCDateTime_ymd 1900 1 1)
  /\ Args.origintime args' = Some T0
  /\ (Args.starttime args = None ->
      Args.starttime args' = Some (TSAbsolute T0))
  /\ (forall o, Args.starttime args = Some (TSFloat o) ->
      Args.starttime args' = Some (TSAbsolute (T0 + o)))
  /\ (forall o s, Args.endtime args = Some (TSFloat o) ->
      Args.starttime args' = Some (TSAbsolute s) ->
      Args.endtime args' = Some (TSAbsolute (s + o)))
  /\ (forall o p po, Args.endtime args = Some (TSFloat o) ->
      Args.starttime args = Some (TSPhase p po) ->
      Args.starttime args' = Some (TSPhase p po)
      /\ Args.endtime args' = Some (TSFloat o)).
Proof.
  cbv zeta.
  destruct (parse_time_settings_args db args fs) as (Ho & Hs & He).
  cbv zeta in Ho, Hs, He.
  pose proof (resolve_relative_times_endtime args) as He1.
  rewrite Ho, Hs, resolve_relative_times_origintime,
    resolve_relative_times_starttime.
  split; [unfold resolved_origintime; now intros ->|].
  split; [reflexivity|].
  split; [now intros ->|].
  split; [now intros o ->|].
  split.
  - intros o s Hend Hstart.
    rewrite Hend in He1. cbv iota beta in He1.
    rewrite resolve_relative_times_starttime in He1.
    destruct (Args.starttime args) as [[so|sa|sp spo]|];
      inversion Hstart; subst; cbn in He1;
      (destruct He as [He|[He _]]; congruence).
  - intros o p po Hend Hstart.
    rewrite Hend in He1. cbv iota beta in He1.
    rewrite resolve_relative_times_starttime in He1.
    rewrite Hstart in *. cbn in He1.
    split; [reflexivity|].
    destruct He as [He|[He _]]; congruence.
Qed.

Lemma time_settings_resolution_witness :
  (resolved_origintime demo_args = UTCDateTime_ymd 1900 1 1
   /\ Args.starttime (fst (parse_time_settings demo_db demo_args demo_parsed))
      = Some (TSAbsolute (resolved_origintime demo_args)))
  /\ (Args.starttime
        (fst (parse_time_settings demo_db demo_args_float demo_parsed))
      = Some (TSAbsolute (0 + 5))
      /\ Args.endtime
           (fst (parse_time_settings demo_db demo_args_float demo_parsed))
         = Some (TSAbsolute (0 + 5 + 100)))
  /\ (Args.starttime
        (fst (parse_time_settings demo_db demo_args_phase demo_parsed))
      = Some (TSPhase "P" (-10))
      /\ Args.endtime
           (fst (parse_time_settings demo_db demo_args_phase demo_parsed))
         = Some (TSFloat 100)).
Proof.
  split; [|split].
  - destruct (time_settings_resolution demo_db demo_args demo_parsed)
      as (H1 & _ & H3 & _).
    split; [apply H1; reflexivity | apply H3; reflexivity].
  - destruct (time_settings_resolution demo_db demo_args_float demo_parsed)
      as (_ & _ & _ & H4 & H5 & _).
    split.
    + apply (H4 5). reflexivity.
    + apply (H5 100 (0 + 5)); [reflexivity | apply (H4 5); reflexivity].
  - destruct (time_settings_resolution demo_db demo_args_phase demo_parsed)
      as (_ & _ & _ & _ & _ & H6).
    apply (H6 100 "P"%string (-10)); reflexivity.
Defined.

Ltac bool_to_Q :=
  repeat match goal with
  | H : Qle_bool _ _ = true |- _ => apply Qle_bool_iff in H
  | H : Qle_bool _ _ = false |- _ => apply Qle_bool_false in H
  | H : Qlt_bool _ _ = true |- _ => apply Qlt_bool_iff in H
  | H : Qlt_bool _ _ = false |- _ =>
      unfold Qlt_bool in H; apply negb_false_iff in H
  end.

(** The checks of lines 214-225 on an absolute start time. *)
Lemma check_times_absolute_start (args : Args.t) (es le s : UTCDateTime) :
  Args.starttime args = Some (TSAbsolute s) ->
  (le <= s -> snd (check_times args es le)
              = Raise (HTTPError 400 msg_starttime))
  /\ (s < le -> s < es - 3600 ->
      snd (check_times args es le) = Raise (HTTPError 400 msg_one_hour))
  /\ (s < le -> es - 3600 <= s ->
      (end_allowed args es le -> snd (check_times args es le) = Ok tt)
      /\ (~ end_allowed args es le ->
          snd (check_times args es le) = Raise (HTTPError 400 msg_endtime))).
Proof.
  intros Hs. unfold check_times, end_allowed.
  destruct args as [? ? ? ? ? ? st e ? ? ? ? ? ? ?]. cbn in Hs. subst st.
  split; [|split].
  - intros H. apply Qle_bool_iff in H.
    destruct e as [[| |]|]; cbn; rewrite H; reflexivity.
  - intros H1 H2.
    apply Qle_bool_false in H1. apply Qlt_bool_iff in H2.
    destruct e as [[| |]|]; cbn; rewrite H1, H2; reflexivity.
  - intros H1 H2.
    apply Qle_bool_false in H1.
    assert (H3 : Qlt_bool s (es - 3600) = false).
    { destruct (Qlt_bool s (es - 3600)) eqn:E; [|reflexivity].
      apply Qlt_bool_iff in E. lra. }
    destruct e as [[o|e|p o]|]; cbn; rewrite H1, H3; cbn;
      try (split; [reflexivity | intros N; exfalso; apply N; exact I]).
    + destruct (Qle_bool es e) eqn:A; destruct (Qle_bool e le) eqn:B;
        cbn; bool_to_Q; split; intros; try reflexivity; try lra;
        exfalso; lra.
    + destruct (Qle_bool es le) eqn:A; cbn.
      * bool_to_Q. rewrite (proj2 (Qle_bool_iff le le)) by lra. cbn.
        split; [reflexivity | intros N; contradiction].
      * bool_to_Q. split; [intros; lra | reflexivity].
Qed.

(** No check is made on a start time that is not absolute. *)
Lemma check_times_relative_start (args : Args.t) (es le : UTCDateTime) :
  (forall s, Args.starttime args <> Some (TSAbsolute s)) ->
  (end_allowed args es le -> snd (check_times args es le) = Ok tt)
  /\ (~ end_allowed args es le ->
      snd (check_times args es le) = Raise (HTTPError 400 msg_endtime)).
Proof.
  intros Hs. unfold check_times, end_allowed.
  destruct args as [? ? ? ? ? ? st e ? ? ? ? ? ? ?]. cbn in Hs.
  assert (Hc : match st with Some (TSAbsolute _) => False | _ => True end).
  { destruct st as [[| s |]|]; try exact I. now apply (Hs s). }
  clear Hs.
  destruct st as [[|s|]|]; try contradiction;
    (destruct e as [[o|e|p o]|]; cbn;
     try (split; [reflexivity | intros N; exfalso; apply N; exact I]);
     [ destruct (Qle_bool es e) eqn:A; destruct (Qle_bool e le) eqn:B;
       cbn; bool_to_Q; split; intros; try reflexivity; try lra;
       exfalso; lra
     | destruct (Qle_bool es le) eqn:A; cbn;
       [ bool_to_Q; rewrite (proj2 (Qle_bool_iff le le)) by lra; cbn;
         split; [reflexivity | intros N; contradiction]
       | bool_to_Q; split; [intros; lra | reflexivity] ] ]).
Qed.

Lemma end_allowed_dec (args : Args.t) (es le : UTCDateTime) :
  end_allowed args es le \/ ~ end_allowed args es le.
Proof.
  unfold end_allowed.
  destruct (Args.endtime args) as [[o|e|p o]|]; auto.
  - destruct (Qlt_le_dec e es); [right; lra|].
    destruct (Qlt_le_dec le e); [right; lra|left; lra].
  - destruct (Qlt_le_dec le es); [right; lra|left; lra].
Qed.

Lemma check_times_raises (args : Args.t) (es le : UTCDateTime) (e : exn) :
  snd (check_times args es le) = Raise e ->
  e = HTTPError 400 msg_starttime
  \/ e = HTTPError 400 msg_one_hour
  \/ e = HTTPError 400 msg_endtime.
Proof.
  unfold check_times. destruct args as [? ? ? ? ? ? st en ? ? ? ? ? ? ?].
  destruct st as [[o|s|p o]|]; destruct en as [[o'|e'|p' o']|]; cbn;
    repeat match goal with
           | |- context [if ?b then _ else _] => destruct b; cbn
           end;
    intros H; try discriminate H; injection H as <-; auto.
Qed.

Lemma start_allowed_dec (args : Args.t) (es le : UTCDateTime) :
  start_allowed args es le \/ ~ start_allowed args es le.
Proof.
  unfold start_allowed.
  destruct (Args.starttime args) as [[o|s|p o]|]; auto.
  destruct (Qlt_le_dec s le); [|right; lra].
  destruct (Qlt_le_dec s (es - 3600)); [right; lra|left; lra].
Qed.

Lemma check_times_ok_iff (args : Args.t) (es le : UTCDateTime) :
  snd (check_times args es le) = Ok tt
  <-> start_allowed args es le /\ end_allowed args es le.
Proof.
  unfold start_allowed.
  destruct (Args.starttime args) as [[o|s|p o]|] eqn:Hs.
  1, 3, 4:
    (destruct (check_times_relative_start args es le) as [Hok Hno];
     [intros s; rewrite Hs; discriminate|];
     split;
     [ intros H; split; [exact I|];
       destruct (end_allowed_dec args es le) as [A|A]; [exact A|];
       rewrite (Hno A) in H; discriminate H
     | intros [_ A]; exact (Hok A) ]).
  destruct (check_times_absolute_start args es le s Hs)
    as (Hlate & Hearly & Hin).
  split.
  - intros H.
    destruct (Qlt_le_dec s le) as [L|L];
      [|rewrite (Hlate L) in H; discriminate H].
    destruct (Qlt_le_dec s (es - 3600)) as [B|B];
      [rewrite (Hearly L B) in H; discriminate H|].
    destruct (Hin L B) as [_ Hno].
    split; [split; assumption|].
    destruct (end_allowed_dec args es le) as [A|A]; [exact A|].
    rewrite (Hno A) in H. discriminate H.
  - intros [[L B] A]. destruct (Hin L B) as [Hok _]. exact (Hok A).
Qed.

(** The result of the method once the three times are known. *)
Lemma parse_time_settings_result (db : DbInfo.t) (args : Args.t)
    (fs : FiniteSource.t) (t es le : UTCDateTime) :
  seismogram_times db (fst (resolve_relative_times args)) fs
  = Ok (t, es, le) ->
  snd (parse_time_settings db args fs)
  = (_ <- snd (check_times (fst (resolve_relative_times args)) es le) ;;
     Ok (t, es, le)).
Proof.
  intros H. rewrite parse_time_settings_eq. cbv zeta. rewrite H.
  reflexivity.
Qed.

(** What the method returns as second time is the first plus the
    additional time shift. *)
Lemma parse_time_settings_earliest (db : DbInfo.t) (args : Args.t)
    (fs : FiniteSource.t) (t es le : UTCDateTime) :
  snd (parse_time_settings db args fs) = Ok (t, es, le) ->
  es = t + FiniteSource.additional_time_shift fs.
Proof.
  intros H. rewrite parse_time_settings_eq in H. cbv zeta in H.
  destruct (seismogram_times db (fst (resolve_relative_times args)) fs)
    as [[[t' es'] le']|e] eqn:Ht; [|discriminate H].
  cbn [snd] in H.
  destruct (snd (check_times (fst (resolve_relative_times args)) es' le'));
    [|discriminate H].
  cbn in H. injection H as <- <- <-.
  destruct (seismogram_times_inv _ _ _ _ _ _ Ht) as (o & _ & _ & He).
  exact He.
Qed.

(** C4.  With an absolute start time [s]: [s >= latestEnd] raises the
    error 400 on the start time; [s < earliestStart - 3600] raises an
    error 400 (the one on the hour when [s] is before the latest end);
    at [s = earliestStart - 3600] the error on the hour is not raised,
    and the method returns when the two other checks pass.  With a start
    time relative to a phase neither check is made: the result depends on
    the end time only. *)
Theorem starttime_sanity_checks (db : DbInfo.t) (args : Args.t)
    (fs : FiniteSource.t) (t es le : UTCDateTime) :
  let args1 := fst (resolve_relative_times args) in
  let outcome := snd (parse_time_settings db args fs) in
  seismogram_times db args1 fs = Ok (t, es, le) ->
  (forall s, Args.starttime args1 = Some (TSAbsolute s) ->
     (le <= s -> outcome = Raise (HTTPError 400 msg_starttime))
     /\ (s < es - 3600 ->
         outcome = Raise (HTTPError 400 msg_starttime)
         \/ outcome = Raise (HTTPError 400 msg_one_hour))
     /\ (s < es - 3600 -> s < le ->
         outcome = Raise (HTTPError 400 msg_one_hour))
     /\ (s == es - 3600 ->
         outcome <> Raise (HTTPError 400 msg_one_hour)
         /\ (s < le -> end_allowed args1 es le ->
             outcome = Ok (t, es, le))))
  /\ (forall p o, Args.starttime args1 = Some (TSPhase p o) ->
      (end_allowed args1 es le -> outcome = Ok (t, es, le))
      /\ (~ end_allowed args1 es le ->
          outcome = Raise (HTTPError 400 msg_endtime))).
Proof.
  intros args1 outcome Ht. subst outcome.
  rewrite (parse_time_settings_result _ _ _ _ _ _ Ht). fold args1.
  split.
  - intros s Hs.
    destruct (check_times_absolute_start args1 es le s Hs)
      as (Hlate & Hearly & Hin).
    split; [|split; [|split]].
    + intros H. now rewrite (Hlate H).
    + intros H. destruct (Qlt_le_dec s le) as [L|L].
      * right. now rewrite (Hearly L H).
      * left. now rewrite (Hlate L).
    + intros H L. now rewrite (Hearly L H).
    + intros E. split.
      * destruct (Qlt_le_dec s le) as [L|L].
        -- assert (B : es - 3600 <= s) by (rewrite E; lra).
           destruct (Hin L B) as [Hok Hno].
           destruct (end_allowed_dec args1 es le) as [A|A].
           ++ rewrite (Hok A). discriminate.
           ++ rewrite (Hno A). discriminate.
        -- rewrite (Hlate L). discriminate.
      * intros L A.
        assert (B : es - 3600 <= s) by (rewrite E; lra).
        destruct (Hin L B) as [Hok _]. now rewrite (Hok A).
  - intros p o Hs.
    destruct (check_times_relative_start args1 es le) as [Hok Hno].
    { intros s. rewrite Hs. discriminate. }
    split; intros A.
    + now rewrite (Hok A).
    + now rewrite (Hno A).
Qed.

Lemma starttime_sanity_checks_witness :
  snd (parse_time_settings demo_db
         (demo_request (Some (TSFloat 3600)) None) demo_parsed)
  = Raise (HTTPError 400 msg_starttime)
  /\ snd (parse_time_settings demo_db
            (demo_request (Some (TSFloat (-3601))) None) demo_parsed)
     = Raise (HTTPError 400 msg_one_hour)
  /\ snd (parse_time_settings demo_db
            (demo_request (Some (TSFloat (-3600))) None) demo_parsed)
     = Ok (0 - 0, 0 - 0 + 0, 0 - 0 + 3600)
  /\ snd (parse_time_settings demo_db
            (demo_request (Some (TSPhase "P" (-3601))) None) demo_parsed)
     = Ok (0 - 0, 0 - 0 + 0, 0 - 0 + 3600).
Proof.
  split; [|split; [|split]].
  - destruct (starttime_sanity_checks demo_db
                (demo_request (Some (TSFloat 3600)) None) demo_parsed
                (0 - 0) (0 - 0 + 0) (0 - 0 + 3600) eq_refl) as [H _].
    destruct (H (0 + 3600) eq_refl) as (H1 & _).
    apply H1. vm_compute. discriminate.
  - destruct (starttime_sanity_checks demo_db
                (demo_request (Some (TSFloat (-3601))) None) demo_parsed
                (0 - 0) (0 - 0 + 0) (0 - 0 + 3600) eq_refl) as [H _].
    destruct (H (0 + -3601) eq_refl) as (_ & _ & H3 & _).
    apply H3; reflexivity.
  - destruct (starttime_sanity_checks demo_db
                (demo_request (Some (TSFloat (-3600))) None) demo_parsed
                (0 - 0) (0 - 0 + 0) (0 - 0 + 3600) eq_refl) as [H _].
    destruct (H (0 + -3600) eq_refl) as (_ & _ & _ & H4).
    destruct (H4 eq_refl) as [_ H5].
    apply H5; [reflexivity|]. vm_compute. discriminate.
  - destruct (starttime_sanity_checks demo_db
                (demo_request (Some (TSPhase "P" (-3601))) None) demo_parsed
                (0 - 0) (0 - 0 + 0) (0 - 0 + 3600) eq_refl) as [_ H].
    destruct (H "P"%string (-3601) eq_refl) as [H1 _].
    apply H1. vm_compute. discriminate.
Defined.

(** C5.  An end time still unset after the floats are resolved becomes
    the latest end time.  An absolute end time outside
    [earliestStart, latestEnd] raises an error 400 (the one on the end
    time when the start time passes its checks); one inside the window,
    ends included, does not raise that error, and the method returns when
    the start time passes its checks. *)
Theorem endtime_default_and_range (db : DbInfo.t) (args : Args.t)
    (fs : FiniteSource.t) (t es le : UTCDateTime) :
  let args1 := fst (resolve_relative_times args) in
  let args' := fst (parse_time_settings db args fs) in
  let outcome := snd (parse_time_settings db args fs) in
  seismogram_times db args1 fs = Ok (t, es, le) ->
  (Args.endtime args1 = None ->
   Args.endtime args' = Some (TSAbsolute le))
  /\ (forall e, Args.endtime args' = Some (TSAbsolute e) ->
      (e < es \/ le < e ->
       exists msg, outcome = Raise (HTTPError 400 msg)
                   /\ (start_allowed args1 es le -> msg = msg_endtime))
      /\ (es <= e /\ e <= le ->
          outcome <> Raise (HTTPError 400 msg_endtime)
          /\ (start_allowed args1 es le -> outcome = Ok (t, es, le)))).
Proof.
  intros args1 args' outcome Ht.
  assert (Hend : Args.endtime args'
                 = match Args.endtime args1 with
                   | None => Some (TSAbsolute le)
                   | Some e => Some e
                   end).
  { subst args'. rewrite parse_time_settings_eq. cbv zeta. fold args1.
    rewrite Ht. cbn [fst]. apply check_times_fields. }
  subst outcome. rewrite (parse_time_settings_result _ _ _ _ _ _ Ht).
  fold args1.
  split; [intros H; now rewrite Hend, H|].
  intros e He. rewrite Hend in He.
  (* how the window condition reads on [args1] *)
  assert (Hall : end_allowed args1 es le <-> es <= e /\ e <= le).
  { unfold end_allowed.
    destruct (Args.endtime args1) as [[o|e'|p o]|]; try discriminate He;
      injection He as <-; split; intros; lra. }
  unfold start_allowed.
  destruct (Args.starttime args1) as [[o|s|p o]|] eqn:Hs.
  1, 3, 4:
    (destruct (check_times_relative_start args1 es le) as [Hok Hno];
     [intros s; rewrite Hs; discriminate|];
     split;
     [ intros Hout; exists msg_endtime; split; [|reflexivity];
       rewrite Hno; [reflexivity | rewrite Hall; lra]
     | intros Hin; rewrite Hok by (now apply Hall);
       split; [discriminate | reflexivity] ]).
  destruct (check_times_absolute_start args1 es le s Hs)
    as (Hlate & Hearly & Hin).
  destruct (Qlt_le_dec s le) as [L|L].
  - destruct (Qlt_le_dec s (es - 3600)) as [B|B].
    + rewrite (Hearly L B). split.
      * intros _. exists msg_one_hour. split; [reflexivity|]. intros [_ ?]. lra.
      * intros _. split; [discriminate|]. intros [_ ?]. lra.
    + destruct (Hin L B) as [Hok Hno]. split.
      * intros Hout. exists msg_endtime. split; [|reflexivity].
        rewrite Hno; [reflexivity | rewrite Hall; lra].
      * intros Hi. rewrite Hok by (now apply Hall).
        split; [discriminate | reflexivity].
  - rewrite (Hlate L). split.
    + intros _. exists msg_starttime. split; [reflexivity|]. intros [? _]. lra.
    + intros _. split; [discriminate|]. intros [? _]. lra.
Qed.

Lemma endtime_default_and_range_witness :
  Args.endtime (fst (parse_time_settings demo_db demo_args demo_parsed))
  = Some (TSAbsolute (default_origin_time - 0 + 3600))
  /\ (exists msg,
        snd (parse_time_settings demo_db
               (demo_request None (Some (TSAbsolute 3601))) demo_parsed)
        = Raise (HTTPError 400 msg)
        /\ msg = msg_endtime)
  /\ snd (parse_time_settings demo_db
            (demo_request None (Some (TSAbsolute 3600))) demo_parsed)
     = Ok (0 - 0, 0 - 0 + 0, 0 - 0 + 3600)
  /\ snd (parse_time_settings demo_db
            (demo_request None (Some (TSAbsolute 0))) demo_parsed)
     = Ok (0 - 0, 0 - 0 + 0, 0 - 0 + 3600).
Proof.
  split; [|split; [|split]].
  - destruct (endtime_default_and_range demo_db demo_args demo_parsed
                (default_origin_time - 0) (default_origin_time - 0 + 0)
                (default_origin_time - 0 + 3600) eq_refl) as [H _].
    apply H. reflexivity.
  - destruct (endtime_default_and_range demo_db
                (demo_request None (Some (TSAbsolute 3601))) demo_parsed
                (0 - 0) (0 - 0 + 0) (0 - 0 + 3600) eq_refl) as [_ H].
    destruct (H 3601 eq_refl) as [H1 _].
    destruct H1 as (msg & Hm & Hs).
    + right. reflexivity.
    + exists msg. split; [exact Hm|]. apply Hs.
      split; [reflexivity | vm_compute; discriminate].
  - destruct (endtime_default_and_range demo_db
                (demo_request None (Some (TSAbsolute 3600))) demo_parsed
                (0 - 0) (0 - 0 + 0) (0 - 0 + 3600) eq_refl) as [_ H].
    destruct (H 3600 eq_refl) as [_ H2].
    destruct H2 as [_ H3]; [split; vm_compute; discriminate|].
    apply H3. split; [reflexivity | vm_compute; discriminate].
  - destruct (endtime_default_and_range demo_db
                (demo_request None (Some (TSAbsolute 0))) demo_parsed
                (0 - 0) (0 - 0 + 0) (0 - 0 + 3600) eq_refl) as [_ H].
    destruct (H 0 eq_refl) as [_ H2].
    destruct H2 as [_ H3]; [split; vm_compute; discriminate|].
    apply H3. split; [reflexivity | vm_compute; discriminate].
Defined.

(** ** Preparation of the finite source *)

Section PreparationFacts.
Context {kernels : SourceKernels}.

(** The operands of line 94 are positive, so its quotient is not
    negative. *)
Lemma padding_quotient_nonneg (db : DbInfo.t) (q : Q) :
  0 < DbInfo.dt db -> 0 < DbInfo.period db ->
  padding_quotient db = Ok (Finite q) -> 0 <= q.
Proof.
  intros Hdt Hp. unfold padding_quotient, float_div, float_mul.
  assert (Fp : 0 <= float_value (DbInfo.period db))
    by (apply float_value_nonneg; lra).
  assert (Fd : 0 <= float_value (DbInfo.dt db))
    by (apply float_value_nonneg; lra).
  destruct (Qeq_bool (float_value (DbInfo.dt db)) 0) eqn:E;
    [discriminate|].
  apply Qeq_bool_neq in E.
  destruct (binary64 (2 * float_value (DbInfo.period db))) as [p2|] eqn:H2;
    [|discriminate].
  intros [= Hq].
  assert (P : 0 <= p2).
  { apply (binary64_nonneg (2 * float_value (DbInfo.period db)));
      [lra | exact H2]. }
  apply (binary64_nonneg (p2 / float_value (DbInfo.dt db))); [|exact Hq].
  apply Qle_shift_div_l; lra.
Qed.

Lemma padding_samples_finite (db : DbInfo.t) (q : Q) :
  0 < DbInfo.dt db -> 0 < DbInfo.period db ->
  padding_quotient db = Ok (Finite q) ->
  padding_samples db = Ok (Qceiling q + 1)%Z
  /\ (0 < Qceiling q + 1)%Z.
Proof.
  intros Hdt Hp Hq. unfold padding_samples. rewrite Hq. cbn.
  split; [reflexivity|].
  pose proof (padding_quotient_nonneg db q Hdt Hp Hq) as H0.
  apply Qceiling_resp_le in H0. change (Qceiling 0) with 0%Z in H0. lia.
Qed.

(** The shape of a prepared source: the parsed one, padded, filtered,
    resampled and given a hypocentre. *)
Lemma prepared_source_inv (body : string) (db : DbInfo.t)
    (fs : FiniteSource.t) :
  _parse_and_resample_finite_source body db = Ok (inr fs) ->
  exists fs0 samples,
    from_usgs_param_file body 10000 (1 # 10) 1 = Some fs0
    /\ padding_samples db = Ok samples
    /\ (0 <= samples)%Z
    /\ ~ DbInfo.dt db == 0
    /\ ~ DbInfo.period db == 0
    /\ fs = find_hypocenter
              (resample_sliprate (DbInfo.dt db)
                 (DbInfo.npts db + 2 * samples)
                 (lp_sliprate (1 / DbInfo.period db)
                    (FiniteSource.set_additional_time_shift
                       (FiniteSource.set_pointsources fs0
                          (pad_pointsources (repeat 0 (Z.to_nat samples))
                             (inject_Z samples * DbInfo.dt db)
                             (FiniteSource.pointsources fs0)))
                       (inject_Z samples * DbInfo.dt db)))).
Proof.
  unfold _parse_and_resample_finite_source.
  destruct (from_usgs_param_file body 10000 (1 # 10) 1) as [fs0|];
    [|intros H; discriminate H].
  destruct (padding_samples db) as [samples|e] eqn:Hs;
    [|intros H; discriminate H].
  cbn [bind]. unfold np_zeros.
  destruct (samples <? 0)%Z eqn:Hneg; [intros H; discriminate H|].
  cbn [bind].
  destruct (py_div 1 (DbInfo.period db)) as [freq|e] eqn:Hf;
    [|intros H; discriminate H].
  cbn [bind]. intros H. injection H as <-.
  exists fs0, samples.
  apply py_div_inv in Hf. destruct Hf as [Hp ->].
  assert (Hdt : ~ DbInfo.dt db == 0).
  { intros E. apply float_value_zero in E.
    unfold padding_samples, padding_quotient, float_div in Hs.
    rewrite E in Hs. discriminate Hs. }
  apply Z.ltb_ge in Hneg.
  repeat split; auto.
Qed.

Lemma prepared_source_shifts (body : string) (db : DbInfo.t)
    (fs : FiniteSource.t) :
  _parse_and_resample_finite_source body db = Ok (inr fs) ->
  exists fs0 samples,
    from_usgs_param_file body 10000 (1 # 10) 1 = Some fs0
    /\ padding_samples db = Ok samples
    /\ ~ DbInfo.dt db == 0
    /\ FiniteSource.time_shift fs = FiniteSource.time_shift fs0
    /\ FiniteSource.additional_time_shift fs
       = inject_Z samples * DbInfo.dt db.
Proof.
  intros H. destruct (prepared_source_inv body db fs H)
    as (fs0 & samples & Hp & Hs & _ & Hdt & _ & ->).
  exists fs0, samples. repeat split; auto.
Qed.

(** The preparation succeeds on a parsed body when the sample interval and
    the dominant period of the database are positive and the quotient of
    line 94 is finite. *)
Lemma preparation_succeeds (body : string) (db : DbInfo.t)
    (fs0 : FiniteSource.t) (q : Q) :
  from_usgs_param_file body 10000 (1 # 10) 1 = Some fs0 ->
  0 < DbInfo.dt db -> 0 < DbInfo.period db ->
  padding_quotient db = Ok (Finite q) ->
  exists fs, _parse_and_resample_finite_source body db = Ok (inr fs).
Proof.
  intros Hparse Hdt Hp Hq.
  destruct (padding_samples_finite db q Hdt Hp Hq) as [Hs Hpos].
  unfold _parse_and_resample_finite_source.
  rewrite Hparse, Hs. cbn [bind]. unfold np_zeros.
  replace (Qceiling q + 1 <? 0)%Z with false
    by (symmetry; apply Z.ltb_ge; lia).
  cbn [bind]. rewrite py_div_ok by lra. cbn [bind].
  eexists. reflexivity.
Qed.


End PreparationFacts.


(** C2.  For a prepared source and any request: the time of the first
    sample is the origin time minus the time shift of the source, which
    the preparation leaves as the parser gave it; the earliest start time
    is the time of the first sample plus the additional time shift; and
    the additional time shift is [samples * dt], the shift of the padding.
    The three times are always computed; [parse_time_settings] returns
    them, and nothing else, whenever the start and the end time pass its
    checks, and otherwise raises one of its errors 400. *)
Theorem window_start_round_trip {kernels : SourceKernels} (body : string)
    (db : DbInfo.t) (args : Args.t) (fs : FiniteSource.t) :
  _parse_and_resample_finite_source body db = Ok (inr fs) ->
  exists fs0 samples le,
    from_usgs_param_file body 10000 (1 # 10) 1 = Some fs0
    /\ padding_samples db = Ok samples
    /\ FiniteSource.additional_time_shift fs
       = inject_Z samples * DbInfo.dt db
    /\ let time_of_first_sample :=
         resolved_origintime args - FiniteSource.time_shift fs0 in
       let earliest_starttime :=
         time_of_first_sample + FiniteSource.additional_time_shift fs in
       let args1 := fst (resolve_relative_times args) in
       seismogram_times db args1 fs
       = Ok (time_of_first_sample, earliest_starttime, le)
       /\ (start_allowed args1 earliest_starttime le ->
           end_allowed args1 earliest_starttime le ->
           snd (parse_time_settings db args fs)
           = Ok (time_of_first_sample, earliest_starttime, le))
       /\ (forall r,
             snd (parse_time_settings db args fs) = Ok r ->
             r = (time_of_first_sample, earliest_starttime, le))
       /\ (forall e,
             snd (parse_time_settings db args fs) = Raise e ->
             (exists msg, e = HTTPError 400 msg)
             /\ ~ (start_allowed args1 earliest_starttime le
                   /\ end_allowed args1 earliest_starttime le)).
Proof.
  intros Hprep.
  destruct (prepared_source_shifts body db fs Hprep)
    as (fs0 & samples & Hparse & Hs & Hdt & Hts & Hats).
  destruct (seismogram_times_total db (fst (resolve_relative_times args)) fs
              (resolved_origintime args)
              (resolve_relative_times_origintime args) Hdt) as [le Hle].
  exists fs0, samples, le.
  split; [exact Hparse|]. split; [exact Hs|]. split; [exact Hats|].
  cbv zeta. rewrite <- Hts. split; [exact Hle|].
  rewrite (parse_time_settings_result _ _ _ _ _ _ Hle).
  set (args1 := fst (resolve_relative_times args)) in *.
  set (es := resolved_origintime args - FiniteSource.time_shift fs
             + FiniteSource.additional_time_shift fs) in *.
  pose proof (check_times_ok_iff args1 es le) as Hiff.
  destruct (snd (check_times args1 es le)) as [[]|e'] eqn:Hc; cbn.
  - split; [reflexivity|]. split.
    + now intros r [= <-].
    + intros e H. discriminate H.
  - split; [|split].
    + intros S E. destruct Hiff as [_ Hiff].
      specialize (Hiff (conj S E)). discriminate Hiff.
    + intros r H. discriminate H.
    + intros e [= <-]. split.
      * destruct (check_times_raises args1 es le e' Hc) as [-> | [-> | ->]];
          eexists; reflexivity.
      * intros SE. destruct Hiff as [_ Hiff].
        specialize (Hiff SE). discriminate Hiff.
Qed.

Lemma window_start_round_trip_witness :
  exists fs,
    @_parse_and_resample_finite_source demo_kernels "s" demo_db
    = Ok (inr fs)
    /\ FiniteSource.additional_time_shift fs = inject_Z 41 * (1 # 10)
    /\ snd (parse_time_settings demo_db demo_args_float fs)
       = Ok (0 - 0, 0 - 0 + inject_Z 41 * (1 # 10), 0 - 0 + 3600).
Proof.
  destruct (padding_quotient demo_db) as [[q|]|] eqn:Hq;
    try (vm_compute in Hq; discriminate Hq).
  destruct (@preparation_succeeds demo_kernels "s" demo_db demo_parsed q
              eq_refl eq_refl eq_refl Hq) as [fs Hprep].
  destruct (@window_start_round_trip demo_kernels "s" demo_db
              demo_args_float fs Hprep)
    as (fs0 & samples & le & Hparse & Hs & Hats & Ht & Hok & _).
  destruct (@prepared_source_shifts demo_kernels "s" demo_db fs Hprep)
    as (fs0' & _ & Hparse' & _ & _ & Hts & _).
  injection Hparse as <-. injection Hparse' as <-.
  assert (Hsamples : samples = 41%Z).
  { vm_compute in Hs. now injection Hs. }
  subst samples.
  assert (Hle : le = 0 - 0 + 3600).
  { pose proof (latest_endtime_without_dt demo_db
                  (fst (resolve_relative_times demo_args_float)) fs 0
                  eq_refl eq_refl) as H2.
    rewrite Ht in H2.
    apply (f_equal (fun r => match r with
                             | Ok (_, _, l) => l
                             | Raise _ => 0
                             end)) in H2.
    cbv beta iota in H2. rewrite H2, Hts. reflexivity. }
  subst le. rewrite Hats in Hok.
  exists fs. split; [exact Hprep|]. split; [exact Hats|].
  apply Hok.
  - split; vm_compute; [reflexivity | discriminate].
  - split; vm_compute; discriminate.
Defined.

(** ** The receiver loop *)

Lemma written_app (l1 l2 : list Event) :
  written (l1 ++ l2) = written l1 ++ written l2.
Proof.
  induction l1 as [|e l1 IH]; [reflexivity|].
  destruct e; cbn; rewrite IH; reflexivity.
Qed.

Lemma dispatched_app (l1 l2 : list Event) :
  dispatched (l1 ++ l2) = dispatched l1 ++ dispatched l2.
Proof.
  induction l1 as [|e l1 IH]; [reflexivity|].
  destruct e; cbn; rewrite IH; reflexivity.
Qed.

Lemma reads_app (l1 l2 : list Event) :
  reads (l1 ++ l2) = reads l1 ++ reads l2.
Proof.
  induction l1 as [|e l1 IH]; [reflexivity|].
  destruct e; cbn; rewrite IH; reflexivity.
Qed.

Lemma written_map_Write (data : list string) :
  written (map Write data) = data.
Proof. induction data as [|d l IH]; cbn; [|rewrite IH]; reflexivity. Qed.

Lemma dispatched_map_Write (data : list string) :
  dispatched (map Write data) = [].
Proof. induction data as [|d l IH]; cbn; auto. Qed.

Lemma reads_map_Write (data : list string) : reads (map Write data) = [].
Proof. induction data as [|d l IH]; cbn; auto. Qed.

Section LoopFacts.
Context {c : Collaborators}.
Variable args : Args.t.
Variables time_of_first_sample min_starttime max_endtime : UTCDateTime.

Abbreviation loop :=
  (receiver_loop args time_of_first_sample min_starttime max_endtime).
Abbreviation respond := (handle_response args).
Abbreviation extract h receiver starttime endtime :=
  (_get_finite_source (Post.finite_source h) receiver
     (list_ascii_of_string (Args.components args))
     (Args.units args) (Args.dt args) (Args.kernelwidth args)
     starttime endtime time_of_first_sample
     (Args.format args) (Args.label args)).

Lemma writestr_fold (files : list (string * string)) (h : Post.t) :
  fold_left Post.writestr files h
  = Post.mk (Post.finite_source h) (Post.count h)
      (Post.zip_names h ++ map fst files)
      (Post.buf h ++ map (fun f => zip_entry (fst f) (snd f)) files)
      (Post.log h).
Proof.
  revert h. induction files as [|f files IH]; intros h; cbn.
  - rewrite !app_nil_r. now destruct h.
  - rewrite IH. cbn. now rewrite <- !app_assoc.
Qed.

(** What the handler does with the response of a task: it raises and
    leaves everything as it was, or it writes, flushes and counts. *)
Lemma handle_response_cases (h h2 : Post.t) (response : Response)
    (ctl : Control) :
  respond h response = (h2, ctl) ->
  (exists e, ctl = Raised e /\ h2 = h
             /\ (response = RException e
                 \/ e = AssertionError /\ exists files, response = RFiles files))
  \/ (ctl = Completed
      /\ Post.count h2 = S (Post.count h)
      /\ Post.finite_source h2 = Post.finite_source h
      /\ exists data, Post.log h2 = Post.log h ++ map Write data ++ [Flush]).
Proof.
  unfold handle_response. destruct response as [e|files|data].
  - intros [= <- <-]. left. exists e. auto.
  - destruct (String.eqb (Args.format args) "saczip").
    + intros [= <- <-]. right. rewrite writestr_fold. cbn.
      repeat split. eexists. rewrite <- app_assoc. reflexivity.
    + intros [= <- <-]. left. exists AssertionError.
      repeat split. right. split; [reflexivity|]. now exists files.
  - intros [= <- <-]. right. cbn. repeat split.
    exists [data]. now rewrite <- app_assoc.
Qed.

(** One iteration, case by case. *)
Lemma receiver_loop_step (i : nat) (receiver : Receiver.t)
    (rest : list Receiver.t) (h : Post.t) :
  let h0 := Post.emit h (ReadClosed i BeforeDispatch) in
  (connection_closed i BeforeDispatch = true
   /\ loop i (receiver :: rest) h = stop h0)
  \/ (connection_closed i BeforeDispatch = false
      /\ get_phase_relative_times args (Post.finite_source h) receiver
           min_starttime max_endtime = None
      /\ loop i (receiver :: rest) h = loop (S i) rest h0)
  \/ (exists starttime endtime,
        connection_closed i BeforeDispatch = false
        /\ get_phase_relative_times args (Post.finite_source h) receiver
             min_starttime max_endtime = Some (starttime, endtime)
        /\ let h1 :=
             Post.emit
               (Post.set_finite_source (Post.emit h0 (Dispatch receiver))
                  (fst (extract h receiver starttime endtime)))
               (ReadClosed i AfterResult) in
           let response := snd (extract h receiver starttime endtime) in
           (connection_closed i AfterResult = true
            /\ loop i (receiver :: rest) h = stop h1)
           \/ (connection_closed i AfterResult = false
               /\ ((exists h2, respond h1 response = (h2, Completed)
                               /\ loop i (receiver :: rest) h
                                  = loop (S i) rest h2)
                   \/ (exists e, respond h1 response = (h1, Raised e)
                                 /\ loop i (receiver :: rest) h
                                    = (h1, Raised e))))).
Proof.
  cbv zeta. cbn [receiver_loop Post.finite_source Post.emit].
  destruct (connection_closed i BeforeDispatch); [left; auto|].
  right.
  destruct (get_phase_relative_times args (Post.finite_source h) receiver
              min_starttime max_endtime) as [[starttime endtime]|];
    [right|left; auto].
  exists starttime, endtime. split; [reflexivity|]. split; [reflexivity|].
  destruct (extract h receiver starttime endtime) as [fs response].
  cbn [fst snd].
  destruct (connection_closed i AfterResult); [left; auto|].
  right. split; [reflexivity|].
  match goal with
  | |- context [respond ?h1 response] =>
      destruct (respond h1 response) as [h2 ctl] eqn:Hr;
      destruct (handle_response_cases _ _ _ _ Hr)
        as [(e & -> & -> & _)|(-> & _)]
  end.
  - right. exists e. auto.
  - left. exists h2. auto.
Qed.

(** The loop over a list of receivers cut in two. *)
Lemma receiver_loop_app (pre rest : list Receiver.t) (i : nat) (h : Post.t) :
  loop i (pre ++ rest) h
  = match loop i pre h with
    | (h1, Completed) => loop (i + List.length pre) rest h1
    | stopped => stopped
    end.
Proof.
  revert i h. induction pre as [|r pre IH]; intros i h.
  - cbn [app List.length receiver_loop]. now rewrite Nat.add_0_r.
  - cbn [app List.length].
    replace (i + S (List.length pre))%nat with (S i + List.length pre)%nat
      by lia.
    cbn [receiver_loop Post.finite_source Post.emit].
    destruct (connection_closed i BeforeDispatch); [reflexivity|].
    destruct (get_phase_relative_times args (Post.finite_source h) r
                min_starttime max_endtime) as [[starttime endtime]|];
      [|apply IH].
    destruct (extract h r starttime endtime) as [fs response].
    destruct (connection_closed i AfterResult); [reflexivity|].
    match goal with
    | |- context [respond ?h1 response] =>
        destruct (respond h1 response) as [h2 [| |e]]
    end; [apply IH|reflexivity|reflexivity].
Qed.

(** What a run of the loop adds to the log. *)
Lemma receiver_loop_log (rs : list Receiver.t) (i : nat) (h h' : Post.t)
    (ctl : Control) :
  loop i rs h = (h', ctl) ->
  exists evs,
    Post.log h' = Post.log h ++ evs
    /\ (Post.count h <= Post.count h')%nat
    /\ (Post.count h' = Post.count h ->
        written evs = [] /\ (ctl = Completed -> dispatched evs = []))
    /\ (ctl = Returned -> exists evs', evs = evs' ++ [Flush; Finish])
    /\ (forall e, ctl = Raised e -> dispatched evs <> []).
Proof.
  revert i h. induction rs as [|r rs IH]; intros i h.
  - cbn [receiver_loop]. intros [= <- <-]. exists [].
    rewrite app_nil_r. repeat split; auto; discriminate.
  - destruct (receiver_loop_step i r rs h)
      as [[Hc E]|[(Hc & Hw & E)|(st & en & Hc & Hw & [[Hc' E]|[Hc' [(h2 & Hr & E)|(e & Hr & E)]]])]];
      rewrite E; clear E.
    + intros [= <- <-].
      exists [ReadClosed i BeforeDispatch; Flush; Finish].
      cbn. rewrite <- !app_assoc. repeat split; auto; try discriminate.
      intros _. now exists [ReadClosed i BeforeDispatch].
    + intros H. destruct (IH _ _ H) as (evs & Hl & Hn & Hz & Hret & Hex).
      exists (ReadClosed i BeforeDispatch :: evs).
      cbn in Hl, Hn, Hz |- *. rewrite Hl, <- app_assoc.
      repeat split; auto; try (now apply Hz).
      intros Hr. destruct (Hret Hr) as [evs' ->].
      now exists (ReadClosed i BeforeDispatch :: evs').
    + intros [= <- <-].
      exists [ReadClosed i BeforeDispatch; Dispatch r;
              ReadClosed i AfterResult; Flush; Finish].
      cbn. rewrite <- !app_assoc. repeat split; auto; try discriminate.
      intros _.
      now exists [ReadClosed i BeforeDispatch; Dispatch r;
                  ReadClosed i AfterResult].
    + intros H. destruct (IH _ _ H) as (evs & Hl & Hn & Hz & Hret & Hex).
      destruct (handle_response_cases _ _ _ _ Hr)
        as [(e & He & _)|(_ & Hcount & _ & data & Hlog)];
        [discriminate He|].
      cbn in Hcount, Hlog.
      exists ([ReadClosed i BeforeDispatch; Dispatch r;
               ReadClosed i AfterResult] ++ map Write data ++ [Flush]
              ++ evs).
      rewrite Hl, Hlog, <- !app_assoc. cbn.
      split; [reflexivity|]. split; [lia|]. split; [lia|].
      split.
      * intros Hr'. destruct (Hret Hr') as [evs' ->].
        exists ([ReadClosed i BeforeDispatch; Dispatch r;
                 ReadClosed i AfterResult] ++ map Write data ++ [Flush]
                ++ evs').
        now rewrite <- !app_assoc.
      * intros; discriminate.
    + intros [= <- <-].
      exists [ReadClosed i BeforeDispatch; Dispatch r;
              ReadClosed i AfterResult].
      cbn. rewrite <- !app_assoc. repeat split; auto; discriminate.
Qed.

(** A run in which no receiver has a window, on an open connection. *)
Lemma receiver_loop_all_skipped (rs : list Receiver.t) (i : nat)
    (h : Post.t) :
  (forall j, (i <= j < i + List.length rs)%nat ->
             connection_closed j BeforeDispatch = false) ->
  (forall r, In r rs ->
             get_phase_relative_times args (Post.finite_source h) r
               min_starttime max_endtime = None) ->
  exists h',
    loop i rs h = (h', Completed)
    /\ Post.count h' = Post.count h
    /\ Post.finite_source h' = Post.finite_source h.
Proof.
  revert i h. induction rs as [|r rs IH]; intros i h Hopen Hnone.
  - exists h. auto.
  - destruct (receiver_loop_step i r rs h)
      as [[Hc E]|[(Hc & Hw & E)|(st & en & Hc & Hw & _)]].
    + rewrite Hopen in Hc by (cbn; lia). discriminate Hc.
    + rewrite E.
      destruct (IH (S i) (Post.emit h (ReadClosed i BeforeDispatch)))
        as (h' & Hl & Hn & Hf).
      * intros j Hj. apply Hopen. cbn. lia.
      * intros r' Hr'. apply Hnone. now right.
      * exists h'. auto.
    + rewrite Hnone in Hw by now left. discriminate Hw.
Qed.

(** What a task does to the finite source: nothing when the database
    raises, and otherwise it assigns the origin time. *)
Lemma get_finite_source_cases (fs : FiniteSource.t) (receiver : Receiver.t)
    (components : list Ascii.ascii) (units : string) (dt : option Q)
    (kernelwidth : Z) (starttime endtime : UTCDateTime) (format : string)
    (label : option string) :
  let r := _get_finite_source fs receiver components units dt kernelwidth
             starttime endtime time_of_first_sample format label in
  (exists e,
     get_seismograms_finite_source fs receiver components units dt
       kernelwidth = inl e
     /\ r = (fs, RException (HTTPError 400 msg_extract)))
  \/ (exists st,
        get_seismograms_finite_source fs receiver components units dt
          kernelwidth = inr st
        /\ fst r
           = FiniteSource.set_origin_time fs
               (Some (time_of_first_sample
                      + FiniteSource.additional_time_shift fs))).
Proof.
  cbv zeta. unfold _get_finite_source.
  destruct (get_seismograms_finite_source fs receiver components units dt
              kernelwidth) as [e|st].
  - left. now exists e.
  - right. now exists st.
Qed.

(** The origin time of the shared source along the loop. *)
Lemma receiver_loop_model (rs : list Receiver.t) (i : nat) (h h' : Post.t)
    (ctl : Control) :
  loop i rs h = (h', ctl) ->
  let settled :=
    Some (time_of_first_sample
          + FiniteSource.additional_time_shift (Post.finite_source h)) in
  FiniteSource.additional_time_shift (Post.finite_source h')
  = FiniteSource.additional_time_shift (Post.finite_source h)
  /\ (FiniteSource.origin_time (Post.finite_source h')
       = FiniteSource.origin_time (Post.finite_source h)
      \/ FiniteSource.origin_time (Post.finite_source h') = settled)
  /\ (FiniteSource.origin_time (Post.finite_source h) = settled ->
      FiniteSource.origin_time (Post.finite_source h') = settled)
  /\ (Post.count h < Post.count h' ->
      FiniteSource.origin_time (Post.finite_source h') = settled)%nat.
Proof.
  cbv zeta. revert i h. induction rs as [|r rs IH]; intros i h.
  - cbn [receiver_loop]. intros [= <- <-]. repeat split; auto. lia.
  - destruct (receiver_loop_step i r rs h)
      as [[Hc E]|[(Hc & Hw & E)|(st & en & Hc & Hw & Hcases)]].
    + rewrite E. intros [= <- <-]. cbn. repeat split; auto. lia.
    + rewrite E. intros H. apply IH in H. cbn in H. exact H.
    + cbv zeta in Hcases.
      destruct (get_finite_source_cases (Post.finite_source h) r
                  (list_ascii_of_string (Args.components args))
                  (Args.units args) (Args.dt args) (Args.kernelwidth args)
                  st en (Args.format args) (Args.label args))
        as [(e & Hdb & Hx)|(tr & Hdb & Hx)]; cbv zeta in Hx.
      * (* the database raised: the source is untouched *)
        rewrite Hx in Hcases. cbn [fst snd] in Hcases.
        destruct Hcases as [[Hc' E]|[Hc' [(h2 & Hr & E)|(e' & Hr & E)]]].
        -- rewrite E. intros [= <- <-]. cbn. repeat split; auto. lia.
        -- discriminate Hr.
        -- rewrite E. intros [= <- <-]. cbn. repeat split; auto. lia.
      * (* the origin time is assigned *)
        rewrite Hx in Hcases.
        destruct Hcases as [[Hc' E]|[Hc' [(h2 & Hr & E)|(e' & Hr & E)]]].
        -- rewrite E. intros [= <- <-]. cbn. repeat split; auto.
        -- rewrite E. intros H. apply IH in H.
           destruct (handle_response_cases _ _ _ _ Hr)
             as [(e & He & _)|(_ & Hcount & Hfs & _)];
             [discriminate He|].
           cbn in Hcount, Hfs. rewrite Hfs in H. cbn in H.
           destruct H as (H1 & H2 & H3 & H4).
           repeat split; auto.
        -- rewrite E. intros [= <- <-]. cbn. repeat split; auto.
Qed.

End LoopFacts.

Section Orchestration.
Context {c : Collaborators}.
Variable args : Args.t.
Variables time_of_first_sample min_starttime max_endtime : UTCDateTime.

Abbreviation loop :=
  (receiver_loop args time_of_first_sample min_starttime max_endtime).
Abbreviation stream fs :=
  (stream_receivers args fs time_of_first_sample min_starttime max_endtime).
Abbreviation start fs := (Post.mk fs 0 [] [] []).

(** C7.  A receiver without a window is passed over: the loop goes on
    with the next one, the count as it was.  When the loop ends with a
    count of zero the request fails with the error 400 on the missing
    seismograms and nothing was written; this is what happens when no
    receiver has a window.  And a request that fails without having
    dispatched an extraction fails there and with that error. *)
Theorem no_window_skips_and_no_results_fail (fs : FiniteSource.t) :
  (forall i r rest h,
     connection_closed i BeforeDispatch = false ->
     get_phase_relative_times args (Post.finite_source h) r
       min_starttime max_endtime = None ->
     loop i (r :: rest) h
     = loop (S i) rest (Post.emit h (ReadClosed i BeforeDispatch))
     /\ Post.count (Post.emit h (ReadClosed i BeforeDispatch))
        = Post.count h)
  /\ (forall h',
        loop 0%nat (get_receivers args) (start fs) = (h', Completed) ->
        Post.count h' = 0%nat ->
        stream fs = (h', Failed (HTTPError 400 msg_no_seismograms))
        /\ written (Post.log h') = []
        /\ dispatched (Post.log h') = [])
  /\ ((forall j, (j < List.length (get_receivers args))%nat ->
                 connection_closed j BeforeDispatch = false) ->
      (forall r, In r (get_receivers args) ->
                 get_phase_relative_times args fs r
                   min_starttime max_endtime = None) ->
      exists h',
        stream fs = (h', Failed (HTTPError 400 msg_no_seismograms))
        /\ written (Post.log h') = [])
  /\ (forall h' e,
        stream fs = (h', Failed e) ->
        dispatched (Post.log h') = [] ->
        e = HTTPError 400 msg_no_seismograms
        /\ Post.count h' = 0%nat
        /\ loop 0%nat (get_receivers args) (start fs) = (h', Completed)).
Proof.
  assert (Hzero : forall h',
             loop 0%nat (get_receivers args) (start fs) = (h', Completed) ->
             Post.count h' = 0%nat ->
             stream fs = (h', Failed (HTTPError 400 msg_no_seismograms))
             /\ written (Post.log h') = []
             /\ dispatched (Post.log h') = []).
  { intros h' Hl Hz. unfold stream_receivers. rewrite Hl, Hz. cbn.
    split; [reflexivity|].
    destruct (receiver_loop_log _ _ _ _ _ _ _ _ _ Hl)
      as (evs & Hlog & _ & Hw & _).
    cbn in Hlog, Hw. rewrite Hlog.
    destruct (Hw Hz) as [Hw1 Hw2]. split; [exact Hw1 | now apply Hw2]. }
  split; [|split; [exact Hzero|split]].
  - intros i r rest h Hc Hw. split; [|reflexivity].
    cbn [receiver_loop Post.finite_source Post.emit]. now rewrite Hc, Hw.
  - intros Hopen Hnone.
    destruct (receiver_loop_all_skipped args time_of_first_sample
                min_starttime max_endtime (get_receivers args) 0 (start fs))
      as (h' & Hl & Hn & _).
    + intros j Hj. apply Hopen. lia.
    + exact Hnone.
    + exists h'. destruct (Hzero h' Hl Hn) as (H1 & H2 & _). auto.
  - intros h' e Hs Hd. unfold stream_receivers in Hs.
    destruct (loop 0%nat (get_receivers args) (start fs))
      as [h1 [| |e1]] eqn:Hl.
    + destruct (Nat.eqb (Post.count h1) 0) eqn:Hz.
      * injection Hs as <- <-. apply Nat.eqb_eq in Hz. auto.
      * discriminate Hs.
    + discriminate Hs.
    + injection Hs as <- <-.
      destruct (receiver_loop_log _ _ _ _ _ _ _ _ _ Hl)
        as (evs & Hlog & _ & _ & _ & Hex).
      cbn in Hlog. rewrite Hlog in Hd. now apply (Hex e1) in Hd.
Qed.

(** C8.  The flag is read at two places of an iteration, before the
    dispatch and after the result.  When it is set the handler flushes,
    finishes and returns, whatever receivers remain: no error and no
    further dispatch.  So when the first receivers were served and the
    client is gone at the next one, the response holds what the first
    ones wrote and nothing else, and the request ends as cancelled. *)
Theorem cancellation_stops_gracefully :
  (forall i r h h' ctl,
     loop i [r] h = (h', ctl) ->
     exists evs,
       Post.log h' = Post.log h ++ ReadClosed i BeforeDispatch :: evs
       /\ (connection_closed i BeforeDispatch = true
           /\ evs = [Flush; Finish] /\ ctl = Returned
           \/ connection_closed i BeforeDispatch = false
              /\ evs = [] /\ ctl = Completed
           \/ connection_closed i BeforeDispatch = false
              /\ exists evs2,
                   evs = Dispatch r :: ReadClosed i AfterResult :: evs2
                   /\ reads evs2 = [] /\ dispatched evs2 = []
                   /\ (connection_closed i AfterResult = true ->
                       evs2 = [Flush; Finish] /\ ctl = Returned)))
  /\ (forall i r rest h,
        connection_closed i BeforeDispatch = true ->
        loop i (r :: rest) h
        = (Post.emit
             (Post.emit (Post.emit h (ReadClosed i BeforeDispatch)) Flush)
             Finish,
           Returned))
  /\ (forall i r rest h starttime endtime,
        connection_closed i BeforeDispatch = false ->
        get_phase_relative_times args (Post.finite_source h) r
          min_starttime max_endtime = Some (starttime, endtime) ->
        connection_closed i AfterResult = true ->
        exists h',
          loop i (r :: rest) h = (h', Returned)
          /\ Post.count h' = Post.count h
          /\ Post.log h'
             = Post.log h
               ++ [ReadClosed i BeforeDispatch; Dispatch r;
                   ReadClosed i AfterResult; Flush; Finish])
  /\ (forall pre r rest h h1,
        loop 0%nat pre h = (h1, Completed) ->
        connection_closed (List.length pre) BeforeDispatch = true
        \/ get_phase_relative_times args (Post.finite_source h1) r
             min_starttime max_endtime <> None
           /\ connection_closed (List.length pre) AfterResult = true ->
        exists h',
          loop 0%nat (pre ++ r :: rest) h = (h', Returned)
          /\ written (Post.log h') = written (Post.log h1)
          /\ Post.count h' = Post.count h1
          /\ exists evs,
               Post.log h' = Post.log h1 ++ evs ++ [Flush; Finish]
               /\ written evs = []
               /\ (dispatched evs = [] \/ dispatched evs = [r]))
  /\ (forall fs h',
        loop 0%nat (get_receivers args) (start fs) = (h', Returned) ->
        stream fs = (h', Cancelled)).
Proof.
  assert (Hbefore : forall i r rest h,
             connection_closed i BeforeDispatch = true ->
             loop i (r :: rest) h
             = (Post.emit
                  (Post.emit (Post.emit h (ReadClosed i BeforeDispatch))
                     Flush) Finish, Returned)).
  { intros i r rest h Hc. cbn [receiver_loop]. now rewrite Hc. }
  assert (Hafter : forall i r rest h starttime endtime,
             connection_closed i BeforeDispatch = false ->
             get_phase_relative_times args (Post.finite_source h) r
               min_starttime max_endtime = Some (starttime, endtime) ->
             connection_closed i AfterResult = true ->
             exists h',
               loop i (r :: rest) h = (h', Returned)
               /\ Post.count h' = Post.count h
               /\ Post.log h'
                  = Post.log h
                    ++ [ReadClosed i BeforeDispatch; Dispatch r;
                        ReadClosed i AfterResult; Flush; Finish]).
  { intros i r rest h st en Hc Hw Hc'.
    cbn [receiver_loop Post.finite_source Post.emit]. rewrite Hc, Hw.
    match goal with
    | |- context [_get_finite_source ?a ?b ?c0 ?d ?e ?f ?g ?k ?l ?m ?n] =>
        destruct (_get_finite_source a b c0 d e f g k l m n) as [fs resp]
    end.
    rewrite Hc'. eexists. split; [reflexivity|]. cbn.
    split; [reflexivity|]. now rewrite <- !app_assoc. }
  split; [|split; [exact Hbefore|split; [exact Hafter|split]]].
  - intros i r h h' ctl.
    destruct (receiver_loop_step args time_of_first_sample min_starttime
                max_endtime i r [] h)
      as [[Hc E]|[(Hc & Hw & E)|(st & en & Hc & Hw & [[Hc' E]|[Hc' [(h2 & Hr & E)|(e & Hr & E)]]])]];
      rewrite E; clear E.
    + intros [= <- <-]. exists [Flush; Finish]. cbn.
      rewrite <- !app_assoc. split; [reflexivity | auto].
    + cbn [receiver_loop]. intros [= <- <-]. exists []. cbn.
      split; [reflexivity | auto].
    + intros [= <- <-]. eexists. cbn. rewrite <- !app_assoc. cbn.
      split; [reflexivity|]. right. right. split; [exact Hc|].
      exists [Flush; Finish]. auto.
    + cbn [receiver_loop]. intros [= <- <-].
      destruct (handle_response_cases _ _ _ _ _ Hr)
        as [(e & He & _)|(_ & _ & _ & data & Hlog)]; [discriminate He|].
      cbn in Hlog. rewrite Hlog, <- !app_assoc. cbn.
      eexists. split; [reflexivity|]. right. right. split; [exact Hc|].
      eexists. split; [reflexivity|].
      rewrite reads_app, dispatched_app, reads_map_Write,
        dispatched_map_Write. cbn.
      repeat split. all: congruence.
    + intros [= <- <-]. cbn. rewrite <- !app_assoc. cbn.
      eexists. split; [reflexivity|]. right. right. split; [exact Hc|].
      exists []. repeat split. all: congruence.
  - intros pre r rest h h1 Hpre Hclosed.
    rewrite receiver_loop_app, Hpre. cbn [Nat.add].
    destruct (connection_closed (List.length pre) BeforeDispatch) eqn:Hc.
    + rewrite (Hbefore _ _ _ _ Hc). eexists. split; [reflexivity|]. cbn.
      rewrite !written_app. cbn. rewrite !app_nil_r.
      split; [reflexivity|]. split; [reflexivity|].
      exists [ReadClosed (List.length pre) BeforeDispatch].
      rewrite <- !app_assoc. cbn. auto.
    + destruct Hclosed as [Hclosed|[Hw Hc']]; [discriminate Hclosed|].
      destruct (get_phase_relative_times args (Post.finite_source h1) r
                  min_starttime max_endtime) as [[st en]|] eqn:Hw';
        [|contradiction].
      destruct (Hafter _ r rest h1 st en Hc Hw' Hc') as (h' & E & Hn & Hl).
      exists h'. split; [exact E|]. rewrite Hl, written_app. cbn.
      rewrite app_nil_r. split; [reflexivity|]. split; [exact Hn|].
      exists [ReadClosed (List.length pre) BeforeDispatch; Dispatch r;
              ReadClosed (List.length pre) AfterResult].
      cbn. auto.
  - intros fs h' Hl. unfold stream_receivers. now rewrite Hl.
Qed.

(** C9.  When the database raises for a receiver of an open connection,
    and the connection is still open once the task is back, the request
    fails with the error 400 of line 54, whatever the database raised:
    nothing is written for that receiver, the count is as it was, and no
    later receiver is looked at. *)
Theorem extraction_failure_aborts (fs : FiniteSource.t)
    (pre rest : list Receiver.t) (r : Receiver.t) (h1 : Post.t)
    (starttime endtime : UTCDateTime) (e : exn) :
  get_receivers args = pre ++ r :: rest ->
  loop 0%nat pre (start fs) = (h1, Completed) ->
  connection_closed (List.length pre) BeforeDispatch = false ->
  get_phase_relative_times args (Post.finite_source h1) r
    min_starttime max_endtime = Some (starttime, endtime) ->
  get_seismograms_finite_source (Post.finite_source h1) r
    (list_ascii_of_string (Args.components args)) (Args.units args)
    (Args.dt args) (Args.kernelwidth args) = inl e ->
  connection_closed (List.length pre) AfterResult = false ->
  exists h',
    stream fs = (h', Failed (HTTPError 400 msg_extract))
    /\ Post.count h' = Post.count h1
    /\ Post.finite_source h' = Post.finite_source h1
    /\ Post.log h'
       = Post.log h1
         ++ [ReadClosed (List.length pre) BeforeDispatch; Dispatch r;
             ReadClosed (List.length pre) AfterResult].
Proof.
  intros Hrs Hpre Hc Hw Hdb Hc'.
  unfold stream_receivers. rewrite Hrs, receiver_loop_app, Hpre.
  cbn [Nat.add receiver_loop Post.finite_source Post.emit].
  rewrite Hc, Hw. unfold _get_finite_source. rewrite Hdb, Hc'.
  cbn. eexists. split; [reflexivity|]. cbn.
  rewrite <- !app_assoc. auto.
Qed.

(** C10.  A task whose database call returns assigns
    [time_of_first_sample + additional_time_shift] to the origin time of
    the shared source, and a task whose database call raises leaves the
    source alone.  Along the loop the additional time shift does not
    change, so the origin time is either what it was or that value; once
    it has that value it keeps it, and it has it as soon as one receiver
    was served.  With the times of [parse_time_settings] the value is the
    earliest start time. *)
Theorem origin_time_settles :
  (forall fs r components units dt kernelwidth starttime endtime format
          label,
     let task :=
       _get_finite_source fs r components units dt kernelwidth starttime
         endtime time_of_first_sample format label in
     (exists e,
        get_seismograms_finite_source fs r components units dt kernelwidth
        = inl e
        /\ task = (fs, RException (HTTPError 400 msg_extract)))
     \/ (exists st,
           get_seismograms_finite_source fs r components units dt
             kernelwidth = inr st
           /\ fst task
              = FiniteSource.set_origin_time fs
                  (Some (time_of_first_sample
                         + FiniteSource.additional_time_shift fs))))
  /\ (forall i rs h h' ctl,
        loop i rs h = (h', ctl) ->
        let settled :=
          Some (time_of_first_sample
                + FiniteSource.additional_time_shift
                    (Post.finite_source h)) in
        FiniteSource.additional_time_shift (Post.finite_source h')
        = FiniteSource.additional_time_shift (Post.finite_source h)
        /\ (FiniteSource.origin_time (Post.finite_source h')
            = FiniteSource.origin_time (Post.finite_source h)
            \/ FiniteSource.origin_time (Post.finite_source h') = settled)
        /\ (FiniteSource.origin_time (Post.finite_source h) = settled ->
            FiniteSource.origin_time (Post.finite_source h') = settled)
        /\ ((Post.count h < Post.count h')%nat ->
            FiniteSource.origin_time (Post.finite_source h') = settled))
  /\ (forall db args0 fs latest_endtime,
        snd (parse_time_settings db args0 fs)
        = Ok (time_of_first_sample, min_starttime, latest_endtime) ->
        min_starttime
        = time_of_first_sample + FiniteSource.additional_time_shift fs).
Proof.
  split; [|split].
  - intros. apply get_finite_source_cases.
  - intros i rs h h' ctl H.
    exact (receiver_loop_model args time_of_first_sample min_starttime
             max_endtime rs i h h' ctl H).
  - intros db args0 fs le H.
    exact (parse_time_settings_earliest db args0 fs _ _ _ H).
Qed.

End Orchestration.

(** ** The statements on a request with three receivers *)

Lemma no_window_skips_and_no_results_fail_witness :
  exists h',
    @stream_receivers (demo_collaborators always never stays_open)
      demo_args demo_source 0 (41 # 10) 3600
    = (h', Failed (HTTPError 400 msg_no_seismograms))
    /\ written (Post.log h') = [].
Proof.
  destruct (@no_window_skips_and_no_results_fail
              (demo_collaborators always never stays_open)
              demo_args 0 (41 # 10) 3600 demo_source) as (_ & _ & H & _).
  apply H.
  - intros j Hj. reflexivity.
  - intros r Hr. reflexivity.
Defined.

Lemma cancellation_stops_gracefully_witness :
  exists h',
    @receiver_loop (demo_collaborators never never (closes_during 1))
      demo_args 0 (41 # 10) 3600 0 demo_receivers
      (Post.mk demo_source 0 [] [] [])
    = (h', Returned)
    /\ written (Post.log h') = ["Asac"%string]
    /\ Post.count h' = 1%nat.
Proof.
  destruct (@cancellation_stops_gracefully
              (demo_collaborators never never (closes_during 1))
              demo_args 0 (41 # 10) 3600) as (_ & _ & _ & H & _).
  destruct (@receiver_loop (demo_collaborators never never (closes_during 1))
              demo_args 0 (41 # 10) 3600 0
              [Receiver.mk 10 20 "XX" "A"]
              (Post.mk demo_source 0 [] [] [])) as [h1 ctl] eqn:E.
  vm_compute in E. injection E as <- <-.
  match type of H with
  | forall pre r rest h h1, receiver_loop _ _ _ _ _ _ _ = _ -> _ =>
      destruct (H [Receiver.mk 10 20 "XX" "A"] (Receiver.mk 30 40 "XX" "B")
                  [Receiver.mk 50 60 "XX" "C"]
                  (Post.mk demo_source 0 [] [] []) _ eq_refl)
        as (h' & Hl & Hw & Hn & _)
  end.
  - right. split; [discriminate | reflexivity].
  - exists h'. split; [exact Hl|]. split; [exact Hw | exact Hn].
Defined.

Lemma extraction_failure_aborts_witness :
  exists h',
    @stream_receivers
      (demo_collaborators never (String.eqb "B") stays_open)
      demo_args demo_source 0 (41 # 10) 3600
    = (h', Failed (HTTPError 400 msg_extract))
    /\ written (Post.log h') = ["Asac"%string]
    /\ dispatched (Post.log h')
       = [Receiver.mk 10 20 "XX" "A"; Receiver.mk 30 40 "XX" "B"].
Proof.
  destruct (@extraction_failure_aborts
              (demo_collaborators never (String.eqb "B") stays_open)
              demo_args 0 (41 # 10) 3600 demo_source
              [Receiver.mk 10 20 "XX" "A"] [Receiver.mk 50 60 "XX" "C"]
              (Receiver.mk 30 40 "XX" "B") _ (41 # 10) 3600
              (OtherError "depth out of range")
              eq_refl eq_refl eq_refl eq_refl eq_refl eq_refl)
    as (h' & Hs & _ & _ & Hl).
  exists h'. split; [exact Hs|]. rewrite Hl. split; reflexivity.
Defined.

(** Without the hypothesis that the connection is still open once the
    task is back, the statement fails: the database raises for the first
    receiver while the client goes away, and the request ends as
    cancelled, with no error. *)
Lemma extraction_failure_on_closed_connection :
  ~ (forall (c : Collaborators) (args : Args.t)
            (time_of_first_sample min_starttime max_endtime : UTCDateTime)
            (fs : FiniteSource.t) (pre rest : list Receiver.t)
            (r : Receiver.t) (h1 : Post.t)
            (starttime endtime : UTCDateTime) (e : exn),
       get_receivers args = pre ++ r :: rest ->
       receiver_loop args time_of_first_sample min_starttime max_endtime
         0 pre (Post.mk fs 0 [] [] []) = (h1, Completed) ->
       connection_closed (List.length pre) BeforeDispatch = false ->
       get_phase_relative_times args (Post.finite_source h1) r
         min_starttime max_endtime = Some (starttime, endtime) ->
       get_seismograms_finite_source (Post.finite_source h1) r
         (list_ascii_of_string (Args.components args)) (Args.units args)
         (Args.dt args) (Args.kernelwidth args) = inl e ->
       exists h',
         stream_receivers args fs time_of_first_sample min_starttime
           max_endtime
         = (h', Failed (HTTPError 400 msg_extract))).
Proof.
  intros H.
  destruct (H (demo_collaborators never always (closes_during 0))
              demo_args 0 (41 # 10) 3600 demo_source
              [] [Receiver.mk 30 40 "XX" "B"; Receiver.mk 50 60 "XX" "C"]
              (Receiver.mk 10 20 "XX" "A") _ (41 # 10) 3600
              (OtherError "depth out of range")
              eq_refl eq_refl eq_refl eq_refl eq_refl) as [h' Hs].
  vm_compute in Hs. discriminate Hs.
Qed.

Lemma origin_time_settles_witness :
  FiniteSource.origin_time
    (Post.finite_source
       (fst (@receiver_loop (demo_collaborators never never stays_open)
               demo_args 0 (41 # 10) 3600 0 demo_receivers
               (Post.mk demo_source 0 [] [] []))))
  = Some (0 + (41 # 10)).
Proof.
  destruct (@origin_time_settles (demo_collaborators never never stays_open)
              demo_args 0 (41 # 10) 3600) as (_ & H & _).
  destruct (@receiver_loop (demo_collaborators never never stays_open)
              demo_args 0 (41 # 10) 3600 0 demo_receivers
              (Post.mk demo_source 0 [] [] [])) as [h' ctl] eqn:E.
  destruct (H _ _ _ _ _ E) as (_ & _ & _ & H4).
  apply H4.
  vm_compute in E. injection E as <- <-. cbn. lia.
Defined.

(** ** [post] as a whole *)

(** Once the source is prepared and the times are resolved, [post] is the
    loop over the receivers, run with the times that
    [parse_time_settings] returned and the arguments it left. *)
Lemma post_streams {kernels : SourceKernels} {c : Collaborators}
    (db : DbInfo.t) (args args' : Args.t) (body : string)
    (fs : FiniteSource.t) (t mn mx : UTCDateTime) :
  _parse_and_resample_finite_source body db = Ok (inr fs) ->
  parse_time_settings db args fs = (args', Ok (t, mn, mx)) ->
  post db args body
  = (Some (fst (stream_receivers args' fs t mn mx)),
     snd (stream_receivers args' fs t mn mx))
  /\ mn = t + FiniteSource.additional_time_shift fs.
Proof.
  intros Hprep Hparse. split.
  - unfold post. rewrite Hprep, Hparse.
    now destruct (stream_receivers args' fs t mn mx).
  - apply (parse_time_settings_earliest db args fs t mn mx).
    now rewrite Hparse.
Qed.

(** X17.  A body that cannot be parsed, or time settings that are
    rejected, end the request with that error before any receiver is
    looked at. *)
Lemma post_fails_early {kernels : SourceKernels} {c : Collaborators}
    (db : DbInfo.t) (args : Args.t) (body : string) :
  (from_usgs_param_file body 10000 (1 # 10) 1 = None ->
   post db args body = (None, Failed (HTTPError 400 msg_parse)))
  /\ (forall fs e,
        _parse_and_resample_finite_source body db = Ok (inr fs) ->
        snd (parse_time_settings db args fs) = Raise e ->
        post db args body = (None, Failed e)).
Proof.
  split.
  - intros H. unfold post, _parse_and_resample_finite_source.
    now rewrite H.
  - intros fs e Hprep Hr. unfold post. rewrite Hprep.
    destruct (parse_time_settings db args fs) as [args' r].
    cbn in Hr. now subst r.
Qed.

(** * Further properties of the code *)

(** ** The exceptions and the results of [parse_time_settings] *)

Lemma seismogram_times_raises (db : DbInfo.t) (args : Args.t)
    (fs : FiniteSource.t) (e : exn) :
  Args.origintime args <> None ->
  seismogram_times db args fs = Raise e ->
  e = ZeroDivisionError /\ DbInfo.dt db == 0 /\ Args.dt args <> None.
Proof.
  intros Ho. unfold seismogram_times.
  destruct (Args.origintime args) as [o|]; [|contradiction].
  destruct (Args.dt args) as [dt|]; cbn; [|discriminate].
  unfold py_div. destruct (Qeq_bool (DbInfo.dt db) 0) eqn:E; cbn.
  - intros [= <-]. apply Qeq_bool_iff in E. repeat split; auto. discriminate.
  - destruct (negb _); discriminate.
Qed.

(** X1.  Whatever the request, [parse_time_settings] raises nothing but
    a [ZeroDivisionError], when [dt] is given and the sample interval of
    the database is zero, or one of its three errors 400; the assertion
    of line 190 never fails. *)
Theorem parse_time_settings_raises (db : DbInfo.t) (args : Args.t)
    (fs : FiniteSource.t) (e : exn) :
  snd (parse_time_settings db args fs) = Raise e ->
  (e = ZeroDivisionError /\ DbInfo.dt db == 0 /\ Args.dt args <> None)
  \/ e = HTTPError 400 msg_starttime
  \/ e = HTTPError 400 msg_one_hour
  \/ e = HTTPError 400 msg_endtime.
Proof.
  rewrite parse_time_settings_eq. cbv zeta.
  destruct (seismogram_times db (fst (resolve_relative_times args)) fs)
    as [[[t es] le]|e'] eqn:Ht; cbn [snd].
  - destruct (snd (check_times (fst (resolve_relative_times args)) es le))
      as [[]|e'] eqn:Hc; cbn; [discriminate|].
    intros [= <-]. right. exact (check_times_raises _ _ _ _ Hc).
  - intros [= <-]. left.
    destruct (seismogram_times_raises db
                (fst (resolve_relative_times args)) fs e')
      as (H1 & H2 & H3).
    + rewrite resolve_relative_times_origintime. discriminate.
    + exact Ht.
    + destruct (resolve_relative_times_dt args) as [Hdt _].
      rewrite Hdt in H3. auto.
Qed.

Lemma parse_time_settings_raises_witness :
  (ZeroDivisionError = ZeroDivisionError
   /\ DbInfo.dt (DbInfo.mk 2 0 36001 3600) == 0
   /\ Args.dt demo_args_native_dt <> None)
  \/ ZeroDivisionError = HTTPError 400 msg_starttime
  \/ ZeroDivisionError = HTTPError 400 msg_one_hour
  \/ ZeroDivisionError = HTTPError 400 msg_endtime.
Proof.
  apply (parse_time_settings_raises (DbInfo.mk 2 0 36001 3600)
           demo_args_native_dt demo_parsed ZeroDivisionError).
  reflexivity.
Defined.

(** X2.  Once the three times are computed, the method returns them
    exactly when an absolute start time lies in
    [earliest - 3600, latest) and an absolute end time, or the latest
    end time standing for an unset one, lies in [earliest, latest];
    nothing else is asked of the request. *)
Theorem parse_time_settings_accepts_iff (db : DbInfo.t) (args : Args.t)
    (fs : FiniteSource.t) (t es le : UTCDateTime) :
  let args1 := fst (resolve_relative_times args) in
  seismogram_times db args1 fs = Ok (t, es, le) ->
  (snd (parse_time_settings db args fs) = Ok (t, es, le)
   <-> start_allowed args1 es le /\ end_allowed args1 es le).
Proof.
  intros args1 Ht.
  rewrite (parse_time_settings_result _ _ _ _ _ _ Ht). fold args1.
  rewrite <- check_times_ok_iff.
  destruct (snd (check_times args1 es le)) as [[]|e]; cbn; split;
    intros H; try reflexivity; discriminate H.
Qed.

Lemma parse_time_settings_accepts_iff_witness :
  snd (parse_time_settings demo_db
         (demo_request (Some (TSFloat 10)) (Some (TSFloat 20))) demo_parsed)
  = Ok (0 - 0, 0 - 0 + 0, 0 - 0 + 3600)
  <-> start_allowed
        (fst (resolve_relative_times
                (demo_request (Some (TSFloat 10)) (Some (TSFloat 20)))))
        (0 - 0 + 0) (0 - 0 + 3600)
      /\ end_allowed
           (fst (resolve_relative_times
                   (demo_request (Some (TSFloat 10)) (Some (TSFloat 20)))))
           (0 - 0 + 0) (0 - 0 + 3600).
Proof.
  apply (parse_time_settings_accepts_iff demo_db
           (demo_request (Some (TSFloat 10)) (Some (TSFloat 20)))
           demo_parsed).
  reflexivity.
Defined.

(** X3.  When the method returns, the arguments it leaves are resolved:
    the origin time is set; the start time is absolute and within
    [earliest - 3600, latest), or relative to a phase; the end time is
    absolute and within [earliest, latest], or relative to a phase, or a
    float, and a float only beside a start time relative to a phase. *)
Theorem accepted_settings_are_resolved (db : DbInfo.t) (args args' : Args.t)
    (fs : FiniteSource.t) (t es le : UTCDateTime) :
  parse_time_settings db args fs = (args', Ok (t, es, le)) ->
  Args.origintime args' = Some (resolved_origintime args)
  /\ match Args.starttime args' with
     | Some (TSAbsolute s) => es - 3600 <= s /\ s < le
     | Some (TSPhase _ _) => True
     | _ => False
     end
  /\ match Args.endtime args' with
     | Some (TSAbsolute e) => es <= e /\ e <= le
     | Some (TSPhase _ _) => True
     | Some (TSFloat _) =>
         exists p o, Args.starttime args' = Some (TSPhase p o)
     | None => False
     end.
Proof.
  intros H.
  assert (Hfst : fst (parse_time_settings db args fs) = args')
    by now rewrite H.
  assert (Hsnd : snd (parse_time_settings db args fs) = Ok (t, es, le))
    by now rewrite H.
  clear H. rewrite parse_time_settings_eq in Hfst, Hsnd. cbv zeta in *.
  destruct (seismogram_times db (fst (resolve_relative_times args)) fs)
    as [[[t' es'] le']|e] eqn:Ht; [|discriminate Hsnd].
  cbn [fst snd] in Hfst, Hsnd.
  destruct (snd (check_times (fst (resolve_relative_times args)) es' le'))
    as [[]|e] eqn:Hc; [|discriminate Hsnd].
  cbn in Hsnd. injection Hsnd as -> -> ->.
  apply check_times_ok_iff in Hc. destruct Hc as [Hsa Hea].
  destruct (check_times_fields (fst (resolve_relative_times args)) es le)
    as (Ho & Hs & He).
  rewrite Hfst in Ho, Hs, He.
  rewrite Ho, Hs, He, resolve_relative_times_origintime.
  split; [reflexivity|].
  unfold start_allowed, end_allowed in Hsa, Hea.
  pose proof (resolve_relative_times_endtime args) as He1.
  pose proof (resolve_relative_times_starttime args) as Hs1.
  destruct (Args.starttime (fst (resolve_relative_times args)))
    as [[o|s|p o]|] eqn:Hst.
  - destruct (Args.starttime args) as [[| |]|]; discriminate Hs1.
  - split; [lra|].
    destruct (Args.endtime (fst (resolve_relative_times args)))
      as [[o'|e'|p' o']|] eqn:Hen; auto; try lra.
    destruct (Args.endtime args) as [[| |]|]; discriminate He1.
  - split; [exact I|].
    destruct (Args.endtime (fst (resolve_relative_times args)))
      as [[o'|e'|p' o']|] eqn:Hen; auto; try lra.
    now exists p, o.
  - discriminate Hs1.
Qed.

Lemma accepted_settings_are_resolved_witness :
  Args.origintime
    (fst (parse_time_settings demo_db demo_args_phase demo_parsed))
  = Some (resolved_origintime demo_args_phase)
  /\ True
  /\ exists p o,
       Args.starttime
         (fst (parse_time_settings demo_db demo_args_phase demo_parsed))
       = Some (TSPhase p o).
Proof.
  exact (accepted_settings_are_resolved demo_db demo_args_phase
           (fst (parse_time_settings demo_db demo_args_phase demo_parsed))
           demo_parsed (0 - 0) (0 - 0 + 0) (0 - 0 + 3600) eq_refl).
Defined.

Lemma seismogram_times_ext (db : DbInfo.t) (a b : Args.t)
    (fs : FiniteSource.t) :
  Args.origintime a = Args.origintime b ->
  Args.dt a = Args.dt b ->
  Args.kernelwidth a = Args.kernelwidth b ->
  seismogram_times db a fs = seismogram_times db b fs.
Proof.
  intros Ho Hd Hk. unfold seismogram_times. now rewrite Ho, Hd, Hk.
Qed.

Lemma resolve_relative_times_fixes (a : Args.t) :
  settings_resolved a -> fst (resolve_relative_times a) = a.
Proof.
  unfold settings_resolved, resolve_relative_times.
  destruct a as [? ? ? ? ? o st en ? ? ? ? ? ? ?]. cbn.
  intros [Ho H]. destruct o as [o|]; [|contradiction].
  destruct st as [[| |]|]; try contradiction;
    destruct en as [[| |]|]; try contradiction; reflexivity.
Qed.

Lemma resolve_relative_times_resolves (args : Args.t) :
  settings_resolved (fst (resolve_relative_times args)).
Proof.
  unfold settings_resolved.
  rewrite resolve_relative_times_origintime, resolve_relative_times_endtime,
    resolve_relative_times_starttime.
  split; [discriminate|].
  destruct (Args.starttime args) as [[| |]|];
    destruct (Args.endtime args) as [[| |]|]; exact I.
Qed.

Lemma check_times_keeps_resolved (a : Args.t) (es le : UTCDateTime) :
  settings_resolved a -> settings_resolved (fst (check_times a es le)).
Proof.
  unfold settings_resolved.
  destruct (check_times_fields a es le) as (-> & -> & ->).
  intros [Ho H]. split; [exact Ho|].
  destruct (Args.starttime a) as [[| |]|]; try contradiction;
    destruct (Args.endtime a) as [[| |]|]; try contradiction; exact I.
Qed.

Lemma resolve_relative_times_twice (args : Args.t) :
  fst (resolve_relative_times (fst (resolve_relative_times args)))
  = fst (resolve_relative_times args).
Proof.
  apply resolve_relative_times_fixes, resolve_relative_times_resolves.
Qed.

Lemma resolve_after_check_times (args : Args.t) (es le : UTCDateTime) :
  fst (resolve_relative_times
         (fst (check_times (fst (resolve_relative_times args)) es le)))
  = fst (check_times (fst (resolve_relative_times args)) es le).
Proof.
  apply resolve_relative_times_fixes, check_times_keeps_resolved,
    resolve_relative_times_resolves.
Qed.

Lemma check_times_twice (args : Args.t) (es le : UTCDateTime) :
  check_times (fst (check_times args es le)) es le = check_times args es le.
Proof.
  unfold check_times.
  destruct args as [? ? ? ? ? o st en ? ? ? ? ? ? ?].
  destruct en; reflexivity.
Qed.

Lemma check_times_dt (args : Args.t) (es le : UTCDateTime) :
  Args.dt (fst (check_times args es le)) = Args.dt args
  /\ Args.kernelwidth (fst (check_times args es le))
     = Args.kernelwidth args.
Proof.
  unfold check_times.
  destruct args as [? ? ? ? ? o st en ? ? ? ? ? ? ?].
  destruct en; split; reflexivity.
Qed.

(** X4.  [parse_time_settings] can be run again on the arguments it
    left: it leaves them as they are and gives the same result, be it
    the three times or the exception. *)
Theorem parse_time_settings_idempotent (db : DbInfo.t) (args : Args.t)
    (fs : FiniteSource.t) :
  parse_time_settings db (fst (parse_time_settings db args fs)) fs
  = parse_time_settings db args fs.
Proof.
  rewrite (parse_time_settings_eq db args fs). cbv zeta.
  destruct (seismogram_times db (fst (resolve_relative_times args)) fs)
    as [[[t es] le]|e] eqn:Ht; cbn [fst].
  - rewrite parse_time_settings_eq. cbv zeta.
    rewrite resolve_after_check_times.
    destruct (check_times_fields (fst (resolve_relative_times args)) es le)
      as (Ho & _ & _).
    destruct (check_times_dt (fst (resolve_relative_times args)) es le)
      as (Hd & Hk).
    rewrite (seismogram_times_ext db _ _ fs Ho Hd Hk), Ht.
    now rewrite check_times_twice.
  - rewrite parse_time_settings_eq. cbv zeta.
    rewrite resolve_relative_times_twice, Ht. reflexivity.
Qed.

(** X5.  The method does not compare the two times with each other: an
    absolute start time and an absolute end time that each lie in their
    range are accepted also when the end time is before the start
    time. *)
Theorem end_before_start_is_accepted (db : DbInfo.t) (args : Args.t)
    (fs : FiniteSource.t) (t es le s e : UTCDateTime) :
  Args.starttime args = Some (TSAbsolute s) ->
  Args.endtime args = Some (TSAbsolute e) ->
  seismogram_times db (fst (resolve_relative_times args)) fs
  = Ok (t, es, le) ->
  es - 3600 <= s -> s < le -> es <= e -> e <= le ->
  e < s ->
  snd (parse_time_settings db args fs) = Ok (t, es, le).
Proof.
  intros Hs He Ht B L A1 A2 _.
  apply (parse_time_settings_accepts_iff db args fs t es le Ht).
  unfold start_allowed, end_allowed.
  rewrite resolve_relative_times_endtime, resolve_relative_times_starttime,
    Hs, He.
  split; split; assumption.
Qed.

Lemma end_before_start_is_accepted_witness :
  snd (parse_time_settings demo_db
         (demo_request (Some (TSAbsolute 100)) (Some (TSAbsolute 50)))
         demo_parsed)
  = Ok (0 - 0, 0 - 0 + 0, 0 - 0 + 3600).
Proof.
  apply (end_before_start_is_accepted demo_db
           (demo_request (Some (TSAbsolute 100)) (Some (TSAbsolute 50)))
           demo_parsed (0 - 0) (0 - 0 + 0) (0 - 0 + 3600) 100 50);
    try reflexivity; vm_compute; discriminate.
Defined.

(** X6.  A request that sets neither start nor end time and no [dt]
    asks for the seismogram from the origin time to the end of the
    database.  It is accepted exactly when the time shift of the source
    is less than the length of the database and the additional time
    shift is at most the length and at most the time shift plus one
    hour; the origin time plays no part. *)
Theorem request_without_times (db : DbInfo.t) (args : Args.t)
    (fs : FiniteSource.t) :
  Args.starttime args = None ->
  Args.endtime args = None ->
  Args.dt args = None ->
  let t := resolved_origintime args - FiniteSource.time_shift fs in
  let es := t + FiniteSource.additional_time_shift fs in
  let le := t + DbInfo.length db in
  (snd (parse_time_settings db args fs) = Ok (t, es, le)
   <-> FiniteSource.time_shift fs < DbInfo.length db
       /\ FiniteSource.additional_time_shift fs - 3600
          <= FiniteSource.time_shift fs
       /\ FiniteSource.additional_time_shift fs <= DbInfo.length db)
  /\ Args.starttime (fst (parse_time_settings db args fs))
     = Some (TSAbsolute (resolved_origintime args))
  /\ Args.endtime (fst (parse_time_settings db args fs))
     = Some (TSAbsolute le).
Proof.
  intros Hs He Hd t es le.
  assert (Ht : seismogram_times db (fst (resolve_relative_times args)) fs
               = Ok (t, es, le)).
  { apply latest_endtime_without_dt.
    - apply resolve_relative_times_origintime.
    - destruct (resolve_relative_times_dt args) as [-> _]. exact Hd. }
  pose proof (resolve_relative_times_starttime args) as Hs1.
  pose proof (resolve_relative_times_endtime args) as He1.
  rewrite Hs in Hs1. rewrite He in He1.
  split; [|split].
  - rewrite (parse_time_settings_accepts_iff db args fs t es le Ht).
    unfold start_allowed, end_allowed. rewrite Hs1, He1.
    subst t es le. split; intros H; repeat split; lra.
  - destruct (parse_time_settings_args db args fs) as (_ & -> & _).
    exact Hs1.
  - rewrite parse_time_settings_eq. cbv zeta. rewrite Ht. cbn [fst].
    destruct (check_times_fields (fst (resolve_relative_times args)) es le)
      as (_ & _ & ->).
    now rewrite He1.
Qed.

Lemma request_without_times_witness :
  snd (parse_time_settings demo_db default_args demo_source)
  = Ok (default_origin_time - 0, default_origin_time - 0 + (41 # 10),
        default_origin_time - 0 + 3600).
Proof.
  destruct (request_without_times demo_db default_args demo_source
              eq_refl eq_refl eq_refl) as [[_ H] _].
  apply H. repeat split; vm_compute; discriminate.
Defined.

(** X7.  With a positive sample interval of the database and a kernel
    width that is not negative, asking for a [dt] can only shorten the
    seismogram: the latest end time is the first sample plus the length
    of the database, or that minus [kernelwidth] sample intervals, and
    the first sample and the earliest start time are as without
    [dt]. *)
Theorem resampling_only_shortens (db : DbInfo.t) (args : Args.t)
    (fs : FiniteSource.t) (origintime : UTCDateTime) :
  Args.origintime args = Some origintime ->
  0 < DbInfo.dt db ->
  (0 <= Args.kernelwidth args)%Z ->
  exists le,
    seismogram_times db args fs
    = Ok (origintime - FiniteSource.time_shift fs,
          origintime - FiniteSource.time_shift fs
          + FiniteSource.additional_time_shift fs,
          le)
    /\ (le = origintime - FiniteSource.time_shift fs + DbInfo.length db
        \/ le = origintime - FiniteSource.time_shift fs + DbInfo.length db
                - inject_Z (Args.kernelwidth args) * DbInfo.dt db)
    /\ le <= origintime - FiniteSource.time_shift fs + DbInfo.length db.
Proof.
  intros Ho Hdt Hk.
  assert (Hm : 0 <= inject_Z (Args.kernelwidth args) * DbInfo.dt db).
  { apply Qmult_le_0_compat; [|lra].
    change 0 with (inject_Z 0). now rewrite <- Zle_Qle. }
  destruct (Args.dt args) as [dt|] eqn:Hd.
  - rewrite (latest_endtime_with_dt db args fs origintime dt Ho Hd)
      by lra.
    cbv zeta.
    destruct (Qle_bool (- (1 # 2)) (dt / DbInfo.dt db * 1000000)
              && Qle_bool (dt / DbInfo.dt db * 1000000) (1 # 2)).
    + eexists. split; [reflexivity|]. split; [now left | lra].
    + eexists. split; [reflexivity|]. split; [now right | lra].
  - rewrite (latest_endtime_without_dt db args fs origintime Ho Hd).
    eexists. split; [reflexivity|]. split; [now left | lra].
Qed.

Lemma resampling_only_shortens_witness :
  exists le,
    seismogram_times demo_db demo_args_native_dt demo_parsed
    = Ok (0 - 0, 0 - 0 + 0, le)
    /\ le <= 0 - 0 + 3600.
Proof.
  destruct (resampling_only_shortens demo_db demo_args_native_dt
              demo_parsed 0 eq_refl eq_refl)
    as (le & H1 & _ & H3).
  - vm_compute. discriminate.
  - exists le. split; [exact H1 | exact H3].
Defined.

(** ** The padding of the preparation *)

Lemma Qsum_app (l1 l2 : list Q) : Qsum (l1 ++ l2) == Qsum l1 + Qsum l2.
Proof.
  unfold Qsum. induction l1 as [|x l1 IH]; cbn; [lra|].
  rewrite IH. lra.
Qed.

Lemma Qsum_zeros (n : nat) : Qsum (repeat 0 n) == 0.
Proof.
  unfold Qsum. induction n as [|n IH]; cbn; [lra|]. rewrite IH. lra.
Qed.

(** X8.  The loop of lines 97-99 keeps the point sources in number and
    in order, with their coordinates and sample intervals; each slip
    rate gets longer by twice the number of zeros and keeps its sum; and
    the time shifts of any two point sources differ as before. *)
Theorem padding_keeps_the_sources (n : nat) (shift : Q)
    (pointsources : list PointSource.t) :
  let padded := pad_pointsources (repeat 0 n) shift pointsources in
  List.length padded = List.length pointsources
  /\ Forall2
       (fun source p =>
          PointSource.latitude p = PointSource.latitude source
          /\ PointSource.longitude p = PointSource.longitude source
          /\ PointSource.depth_in_m p = PointSource.depth_in_m source
          /\ PointSource.dt p = PointSource.dt source
          /\ List.length (PointSource.sliprate p)
             = (List.length (PointSource.sliprate source) + 2 * n)%nat
          /\ Qsum (PointSource.sliprate p)
             == Qsum (PointSource.sliprate source))
       pointsources padded
  /\ forall i j a b,
       nth_error pointsources i = Some a ->
       nth_error pointsources j = Some b ->
       exists a' b',
         nth_error padded i = Some a'
         /\ nth_error padded j = Some b'
         /\ PointSource.time_shift a' - PointSource.time_shift b'
            == PointSource.time_shift a - PointSource.time_shift b.
Proof.
  cbv zeta. unfold pad_pointsources. split; [apply length_map|]. split.
  - induction pointsources as [|s l IH]; cbn; constructor; [|exact IH].
    cbn. repeat split.
    + rewrite !length_app, repeat_length. lia.
    + rewrite !Qsum_app, Qsum_zeros. lra.
  - intros i j a b Ha Hb.
    eexists. eexists.
    rewrite !nth_error_map, Ha, Hb. cbn.
    split; [reflexivity|]. split; [reflexivity|]. cbn. lra.
Qed.

Lemma padding_keeps_the_sources_witness :
  exists a' b',
    nth_error (pad_pointsources (repeat 0 3) (3 # 10) demo_pointsources)
      0 = Some a'
    /\ nth_error (pad_pointsources (repeat 0 3) (3 # 10) demo_pointsources)
         1 = Some b'
    /\ PointSource.time_shift a' - PointSource.time_shift b'
       == 0 - (3 # 2).
Proof.
  destruct (padding_keeps_the_sources 3 (3 # 10) demo_pointsources)
    as (_ & _ & H).
  exact (H 0%nat 1%nat _ _ eq_refl eq_refl).
Defined.

(** X9.  For a database with a positive dominant period and a positive
    sample interval that is a binary64 number, where doubling the period
    is exact, as it is for a binary64 period, and the quotient of line 94
    is below [2^52]: the additional time shift of a prepared source is
    more than two dominant periods and less than two dominant periods
    and three samples. *)
Theorem padding_covers_two_periods {kernels : SourceKernels}
    (body : string) (db : DbInfo.t) (fs : FiniteSource.t) (doubled : Q) :
  0 < DbInfo.dt db -> 0 < DbInfo.period db ->
  float_value (DbInfo.dt db) == DbInfo.dt db ->
  float_mul 2 (float_value (DbInfo.period db)) = Finite doubled ->
  doubled == 2 * DbInfo.period db ->
  doubled / DbInfo.dt db < pow2 52 ->
  _parse_and_resample_finite_source body db = Ok (inr fs) ->
  2 * DbInfo.period db < FiniteSource.additional_time_shift fs
  /\ FiniteSource.additional_time_shift fs
     < 2 * DbInfo.period db + 3 * DbInfo.dt db.
Proof.
  intros Hdt Hp Hfd Hmul Hd Hb Hprep.
  set (x := doubled / float_value (DbInfo.dt db)).
  assert (Hxe : x == doubled / DbInfo.dt db) by (unfold x; now rewrite Hfd).
  assert (Hx : 0 < x) by (rewrite Hxe; apply Qlt_shift_div_l; lra).
  assert (Hxd : x * DbInfo.dt db == 2 * DbInfo.period db).
  { rewrite Hxe, <- Hd. field. lra. }
  destruct (binary64_small x Hx) as (y & Hy & Y1 & Y2).
  { rewrite Hxe. apply Qlt_trans with (pow2 52); [exact Hb | reflexivity]. }
  assert (Hq : padding_quotient db = Ok (Finite y)).
  { unfold padding_quotient. rewrite Hmul. unfold float_div.
    destruct (Qeq_bool (float_value (DbInfo.dt db)) 0) eqn:E.
    - apply Qeq_bool_iff in E. lra.
    - fold x. now rewrite Hy. }
  destruct (padding_samples_finite db y Hdt Hp Hq) as [Hs _].
  destruct (prepared_source_shifts body db fs Hprep)
    as (fs0 & samples & _ & Hs' & _ & _ & ->).
  rewrite Hs in Hs'. injection Hs' as <-.
  pose proof (Qle_ceiling y) as Hup.
  pose proof (Qceiling_lt y) as Hlo.
  replace (Qceiling y - 1)%Z with (Qceiling y + -1)%Z in Hlo by lia.
  rewrite inject_Z_plus in Hlo. rewrite inject_Z_plus.
  change (inject_Z 1) with 1. change (inject_Z (-1)) with (-1 # 1) in Hlo.
  set (c := inject_Z (Qceiling y)) in *.
  split.
  - assert (H : (x + (1 # 2)) * DbInfo.dt db <= (c + 1) * DbInfo.dt db).
    { apply Qmult_le_compat_r; lra. }
    lra.
  - assert (H : (c + 1) * DbInfo.dt db < (x + (5 # 2)) * DbInfo.dt db).
    { apply Qmult_lt_compat_r; lra. }
    lra.
Qed.

Lemma padding_covers_two_periods_witness :
  exists fs,
    @_parse_and_resample_finite_source demo_kernels "s" demo_db_binary
    = Ok (inr fs)
    /\ 2 * 2 < FiniteSource.additional_time_shift fs
    /\ FiniteSource.additional_time_shift fs < 2 * 2 + 3 * (1 # 4).
Proof.
  destruct (padding_quotient demo_db_binary) as [[q|]|] eqn:Hq;
    try (vm_compute in Hq; discriminate Hq).
  destruct (@preparation_succeeds demo_kernels "s" demo_db_binary
              demo_parsed q eq_refl eq_refl eq_refl Hq) as [fs Hprep].
  destruct (float_mul 2 (float_value (DbInfo.period demo_db_binary)))
    as [doubled|] eqn:Hm; [|vm_compute in Hm; discriminate Hm].
  assert (Hd : doubled == 4).
  { pose proof Hm as Hm2. vm_compute in Hm2. injection Hm2 as Hm2.
    rewrite <- Hm2. reflexivity. }
  exists fs. split; [exact Hprep|].
  refine (@padding_covers_two_periods demo_kernels "s" demo_db_binary fs
            doubled _ _ _ Hm _ _ Hprep).
  - vm_compute. reflexivity.
  - vm_compute. reflexivity.
  - vm_compute. reflexivity.
  - rewrite Hd. vm_compute. reflexivity.
  - rewrite Hd. vm_compute. reflexivity.
Defined.

(** ** The log of the receiver loop *)

Lemma finishes_app (l1 l2 : list Event) :
  finishes (l1 ++ l2) = (finishes l1 + finishes l2)%nat.
Proof.
  induction l1 as [|e l1 IH]; [reflexivity|].
  destruct e; cbn; rewrite IH; reflexivity.
Qed.

Lemma flushes_app (l1 l2 : list Event) :
  flushes (l1 ++ l2) = (flushes l1 + flushes l2)%nat.
Proof.
  induction l1 as [|e l1 IH]; [reflexivity|].
  destruct e; cbn; rewrite IH; reflexivity.
Qed.

Lemma finishes_map_Write (data : list string) :
  finishes (map Write data) = 0%nat.
Proof. induction data as [|d l IH]; cbn; auto. Qed.

Lemma flushes_map_Write (data : list string) :
  flushes (map Write data) = 0%nat.
Proof. induction data as [|d l IH]; cbn; auto. Qed.

Lemma subsequence_nil_l {A : Type} (l : list A) : subsequence [] l.
Proof. induction l; constructor; assumption. Qed.

Section LogFacts.
Context {c : Collaborators}.
Variable args : Args.t.
Variables time_of_first_sample min_starttime max_endtime : UTCDateTime.

Abbreviation loop' :=
  (receiver_loop args time_of_first_sample min_starttime max_endtime).
Abbreviation stream' fs :=
  (stream_receivers args fs time_of_first_sample min_starttime max_endtime).

(** What serving a receiver does to the state. *)
Lemma handle_response_served (h h2 : Post.t) (response : Response) :
  handle_response args h response = (h2, Completed) ->
  Post.count h2 = S (Post.count h)
  /\ (exists data, Post.log h2 = Post.log h ++ map Write data ++ [Flush])
  /\ (Post.buf h = [] -> Post.buf h2 = [])
  /\ (String.eqb (Args.format args) "saczip" = false ->
      Post.zip_names h2 = Post.zip_names h).
Proof.
  unfold handle_response. destruct response as [e|files|data].
  - discriminate.
  - destruct (String.eqb (Args.format args) "saczip");
      [|discriminate].
    intros [= <-]. rewrite writestr_fold. cbn.
    split; [reflexivity|]. split.
    + eexists. rewrite <- app_assoc. reflexivity.
    + split; [reflexivity | discriminate].
  - intros [= <-]. cbn. split; [reflexivity|]. split.
    + exists [data]. now rewrite <- app_assoc.
    + auto.
Qed.

(** What a run of the loop adds to the log, counted. *)
Lemma receiver_loop_events (rs : list Receiver.t) (i : nat)
    (h h' : Post.t) (ctl : Control) :
  loop' i rs h = (h', ctl) ->
  let stopped := match ctl with Returned => 1%nat | _ => 0%nat end in
  exists evs,
    Post.log h' = Post.log h ++ evs
    /\ subsequence (dispatched evs) rs
    /\ (Post.count h <= Post.count h')%nat
    /\ (Post.count h' - Post.count h <= List.length (dispatched evs))%nat
    /\ (List.length (dispatched evs)
        <= Post.count h' - Post.count h
           + match ctl with Completed => 0 | _ => 1 end)%nat
    /\ finishes evs = stopped
    /\ flushes evs = (Post.count h' - Post.count h + stopped)%nat
    /\ (Post.buf h = [] -> Post.buf h' = [])
    /\ (String.eqb (Args.format args) "saczip" = false ->
        Post.zip_names h' = Post.zip_names h)
    /\ (ctl = Returned -> exists evs', evs = evs' ++ [Flush; Finish]).
Proof.
  cbv zeta. revert i h. induction rs as [|r rs IH]; intros i h.
  - cbn [receiver_loop]. intros [= <- <-]. exists [].
    rewrite app_nil_r. cbn.
    repeat split; auto; try lia; try constructor; discriminate.
  - destruct (receiver_loop_step args time_of_first_sample min_starttime
                max_endtime i r rs h)
      as [[Hc E]|[(Hc & Hw & E)|(st & en & Hc & Hw & [[Hc' E]|[Hc' [(h2 & Hr & E)|(e & Hr & E)]]])]];
      rewrite E; clear E.
    + intros [= <- <-].
      exists [ReadClosed i BeforeDispatch; Flush; Finish].
      cbn. rewrite <- !app_assoc.
      repeat split; auto; try lia.
      * apply subsequence_nil_l.
      * intros _. now exists [ReadClosed i BeforeDispatch].
    + intros H.
      destruct (IH _ _ H)
        as (evs & Hl & Hsub & Hn & Hd1 & Hd2 & Hfin & Hfl & Hb & Hz & Hret).
      exists (ReadClosed i BeforeDispatch :: evs).
      cbn in Hl, Hn, Hd1, Hd2, Hfl, Hb, Hz |- *.
      rewrite Hl, <- app_assoc.
      repeat split; auto.
      * now apply subsequence_skip.
      * intros Hr. destruct (Hret Hr) as [evs' ->].
        now exists (ReadClosed i BeforeDispatch :: evs').
    + intros [= <- <-].
      exists [ReadClosed i BeforeDispatch; Dispatch r;
              ReadClosed i AfterResult; Flush; Finish].
      cbn. rewrite <- !app_assoc.
      repeat split; auto; try lia.
      * apply subsequence_take, subsequence_nil_l.
      * intros _.
        now exists [ReadClosed i BeforeDispatch; Dispatch r;
                    ReadClosed i AfterResult].
    + intros H.
      destruct (IH _ _ H)
        as (evs & Hl & Hsub & Hn & Hd1 & Hd2 & Hfin & Hfl & Hb & Hz & Hret).
      destruct (handle_response_served _ _ _ Hr)
        as (Hcount & (data & Hlog) & Hbuf & Hzip).
      cbn in Hcount, Hlog, Hbuf, Hzip.
      exists ([ReadClosed i BeforeDispatch; Dispatch r;
               ReadClosed i AfterResult] ++ map Write data ++ [Flush]
              ++ evs).
      rewrite Hl, Hlog, <- !app_assoc. cbn.
      rewrite !dispatched_app, !finishes_app, !flushes_app,
        dispatched_map_Write, finishes_map_Write, flushes_map_Write.
      cbn.
      split; [reflexivity|]. split; [now apply subsequence_take|].
      split; [lia|]. split; [lia|]. split; [destruct ctl; lia|].
      split; [exact Hfin|]. split; [lia|].
      split; [auto|]. split.
      * intros F. rewrite (Hz F). auto.
      * intros Hr'. destruct (Hret Hr') as [evs' ->].
        exists ([ReadClosed i BeforeDispatch; Dispatch r;
                 ReadClosed i AfterResult] ++ map Write data ++ [Flush]
                ++ evs').
        now rewrite <- !app_assoc.
    + intros [= <- <-].
      exists [ReadClosed i BeforeDispatch; Dispatch r;
              ReadClosed i AfterResult].
      cbn. rewrite <- !app_assoc.
      repeat split; auto; try lia; try discriminate.
      apply subsequence_take, subsequence_nil_l.
Qed.

(** X10.  The receivers are dispatched in the order of the list, none
    twice; every dispatched receiver is served and counted, except the
    last one when the loop stops there. *)
Theorem receivers_are_served_in_order (rs : list Receiver.t) (i : nat)
    (h h' : Post.t) (ctl : Control) :
  loop' i rs h = (h', ctl) ->
  exists evs,
    Post.log h' = Post.log h ++ evs
    /\ subsequence (dispatched evs) rs
    /\ (Post.count h' - Post.count h <= List.length (dispatched evs))%nat
    /\ (List.length (dispatched evs)
        <= Post.count h' - Post.count h
           + match ctl with Completed => 0 | _ => 1 end)%nat.
Proof.
  intros H.
  destruct (receiver_loop_events rs i h h' ctl H)
    as (evs & Hl & Hsub & _ & Hd1 & Hd2 & _).
  exists evs. auto.
Qed.

(** X11.  A request that reaches the receivers finishes its response
    once, as the last thing it does, when it ends normally or is
    cancelled, and never when it fails; it ends normally only after at
    least one receiver was served. *)
Theorem response_is_finished_once (fs : FiniteSource.t) (h' : Post.t)
    (o : Outcome) :
  stream' fs = (h', o) ->
  match o with
  | Finished =>
      finishes (Post.log h') = 1%nat
      /\ (exists l, Post.log h' = l ++ [Finish])
      /\ (0 < Post.count h')%nat
  | Cancelled =>
      finishes (Post.log h') = 1%nat
      /\ exists l, Post.log h' = l ++ [Flush; Finish]
  | Failed _ => finishes (Post.log h') = 0%nat
  | TaskDied _ => False
  end.
Proof.
  unfold stream_receivers.
  destruct (loop' 0%nat (get_receivers args) (Post.mk fs 0 [] [] []))
    as [h1 ctl] eqn:Hl.
  destruct (receiver_loop_events _ _ _ _ _ Hl)
    as (evs & Hlog & _ & _ & _ & _ & Hfin & _ & _ & _ & Hret).
  cbn in Hlog. destruct ctl as [| |e].
  - destruct (Nat.eqb (Post.count h1) 0) eqn:Hz.
    + intros [= <- <-]. now rewrite Hlog.
    + intros [= <- <-]. apply Nat.eqb_neq in Hz.
      destruct (String.eqb (Args.format args) "saczip"); cbn;
        rewrite ?finishes_app, ?finishes_map_Write, Hlog, Hfin; cbn.
      * split; [reflexivity|]. split; [eexists; reflexivity | lia].
      * split; [reflexivity|]. split; [eexists; reflexivity | lia].
  - intros [= <- <-]. rewrite Hlog. split; [exact Hfin|].
    destruct (Hret eq_refl) as [evs' ->]. now exists evs'.
  - intros [= <- <-]. now rewrite Hlog.
Qed.

(** X12.  The transport is flushed once for each receiver served, and
    once more when the request is cancelled. *)
Theorem one_flush_per_served_receiver (fs : FiniteSource.t) (h' : Post.t)
    (o : Outcome) :
  stream' fs = (h', o) ->
  flushes (Post.log h')
  = (Post.count h' + match o with Cancelled => 1 | _ => 0 end)%nat.
Proof.
  unfold stream_receivers.
  destruct (loop' 0%nat (get_receivers args) (Post.mk fs 0 [] [] []))
    as [h1 ctl] eqn:Hl.
  destruct (receiver_loop_events _ _ _ _ _ Hl)
    as (evs & Hlog & _ & _ & _ & _ & _ & Hfl & _).
  cbn in Hlog, Hfl. destruct ctl as [| |e].
  - destruct (Nat.eqb (Post.count h1) 0) eqn:Hz.
    + intros [= <- <-]. rewrite Hlog, Hfl. lia.
    + intros [= <- <-].
      destruct (String.eqb (Args.format args) "saczip"); cbn;
        rewrite ?flushes_app, ?flushes_map_Write, Hlog, Hfl; cbn; lia.
  - intros [= <- <-]. rewrite Hlog, Hfl. lia.
  - intros [= <- <-]. rewrite Hlog, Hfl. lia.
Qed.

(** X13.  Whatever the outcome, nothing is left in the queue between the
    zip file and the client: what the zip file produced has been handed
    to [self.write]. *)
Theorem queue_is_drained (fs : FiniteSource.t) (h' : Post.t) (o : Outcome) :
  stream' fs = (h', o) -> Post.buf h' = [].
Proof.
  unfold stream_receivers.
  destruct (loop' 0%nat (get_receivers args) (Post.mk fs 0 [] [] []))
    as [h1 ctl] eqn:Hl.
  destruct (receiver_loop_events _ _ _ _ _ Hl)
    as (evs & _ & _ & _ & _ & _ & _ & _ & Hb & _).
  specialize (Hb eq_refl). destruct ctl as [| |e].
  - destruct (Nat.eqb (Post.count h1) 0).
    + now intros [= <- <-].
    + intros [= <- <-].
      destruct (String.eqb (Args.format args) "saczip"); cbn; auto.
  - now intros [= <- <-].
  - now intros [= <- <-].
Qed.

(** X14.  A request for a zip file that ends normally ends its output
    with the end of the archive, made from the names of the entries
    written; a request for another format never builds an archive. *)
Theorem archive_is_closed_at_the_end (fs : FiniteSource.t) (h' : Post.t) :
  stream' fs = (h', Finished) ->
  (String.eqb (Args.format args) "saczip" = true ->
   exists ws, written (Post.log h') = ws ++ [zip_end (Post.zip_names h')])
  /\ (String.eqb (Args.format args) "saczip" = false ->
      Post.zip_names h' = []).
Proof.
  unfold stream_receivers.
  destruct (loop' 0%nat (get_receivers args) (Post.mk fs 0 [] [] []))
    as [h1 ctl] eqn:Hl.
  destruct (receiver_loop_events _ _ _ _ _ Hl)
    as (evs & _ & _ & _ & _ & _ & _ & _ & Hb & Hz & _).
  specialize (Hb eq_refl). cbn in Hz.
  destruct ctl as [| |e]; [|discriminate|discriminate].
  destruct (Nat.eqb (Post.count h1) 0); [discriminate|].
  destruct (String.eqb (Args.format args) "saczip").
  - intros [= <-]. split; [|discriminate]. intros _. cbn.
    rewrite Hb. cbn. rewrite !written_app. cbn.
    eexists. rewrite app_nil_r. reflexivity.
  - intros [= <-]. split; [discriminate|]. intros _. cbn. now apply Hz.
Qed.

(** X15.  A request without receivers fails with the error 400 on the
    missing seismograms; the connection flag is not read and nothing is
    written, flushed or finished. *)
Theorem no_receivers_no_seismograms (fs : FiniteSource.t) :
  get_receivers args = [] ->
  stream' fs
  = (Post.mk fs 0 [] [] [], Failed (HTTPError 400 msg_no_seismograms)).
Proof.
  intros H. unfold stream_receivers. rewrite H. reflexivity.
Qed.

(** X16.  When the writer hands back a list of files although the
    format asked for is not the zip file, the assertion of line 323
    fails: the request ends with an [AssertionError], and nothing of the
    files is written or counted. *)
Theorem files_without_zip_format_fail (i : nat) (r : Receiver.t)
    (rest : list Receiver.t) (h : Post.t)
    (starttime endtime : UTCDateTime) (files : list (string * string)) :
  String.eqb (Args.format args) "saczip" = false ->
  connection_closed i BeforeDispatch = false ->
  get_phase_relative_times args (Post.finite_source h) r
    min_starttime max_endtime = Some (starttime, endtime) ->
  snd (_get_finite_source (Post.finite_source h) r
         (list_ascii_of_string (Args.components args)) (Args.units args)
         (Args.dt args) (Args.kernelwidth args) starttime endtime
         time_of_first_sample (Args.format args) (Args.label args))
  = RFiles files ->
  connection_closed i AfterResult = false ->
  exists h',
    loop' i (r :: rest) h = (h', Raised AssertionError)
    /\ Post.count h' = Post.count h
    /\ written (Post.log h') = written (Post.log h)
    /\ Post.zip_names h' = Post.zip_names h.
Proof.
  intros Hf Hc Hw Hresp Hc'.
  cbn [receiver_loop Post.finite_source Post.emit]. rewrite Hc, Hw.
  match goal with
  | H : snd ?t = _ |- _ => destruct t as [fs' resp]
  end.
  cbn in Hresp. subst resp. rewrite Hc'.
  unfold handle_response. rewrite Hf.
  eexists. split; [reflexivity|]. cbn.
  rewrite !written_app. cbn. rewrite !app_nil_r. auto.
Qed.

End LogFacts.

(** ** The further statements on the requests of the examples *)

Lemma receivers_are_served_in_order_witness :
  exists h' ctl evs,
    @receiver_loop (demo_collaborators (String.eqb "B") never stays_open)
      demo_args 0 (41 # 10) 3600 0 demo_receivers
      (Post.mk demo_source 0 [] [] [])
    = (h', ctl)
    /\ Post.log h' = [] ++ evs
    /\ subsequence (dispatched evs) demo_receivers.
Proof.
  destruct (@receiver_loop
              (demo_collaborators (String.eqb "B") never stays_open)
              demo_args 0 (41 # 10) 3600 0 demo_receivers
              (Post.mk demo_source 0 [] [] [])) as [h' ctl] eqn:E.
  destruct (@receivers_are_served_in_order
              (demo_collaborators (String.eqb "B") never stays_open)
              demo_args 0 (41 # 10) 3600 _ _ _ _ _ E)
    as (evs & Hl & Hs & _).
  exists h', ctl, evs. auto.
Defined.

Lemma response_is_finished_once_witness :
  exists h',
    @stream_receivers (demo_collaborators never never stays_open)
      demo_args demo_source 0 (41 # 10) 3600
    = (h', Finished)
    /\ finishes (Post.log h') = 1%nat
    /\ (exists l, Post.log h' = l ++ [Finish])
    /\ (0 < Post.count h')%nat.
Proof.
  destruct (@stream_receivers (demo_collaborators never never stays_open)
              demo_args demo_source 0 (41 # 10) 3600) as [h' o] eqn:E.
  pose proof E as E2. vm_compute in E2. injection E2 as _ Ho. subst o.
  exists h'. split; [reflexivity|].
  exact (@response_is_finished_once
           (demo_collaborators never never stays_open)
           demo_args 0 (41 # 10) 3600 demo_source h' Finished E).
Defined.

Lemma one_flush_per_served_receiver_witness :
  exists h',
    @stream_receivers
      (demo_collaborators never never (closes_during 1))
      demo_args demo_source 0 (41 # 10) 3600
    = (h', Cancelled)
    /\ flushes (Post.log h') = (Post.count h' + 1)%nat.
Proof.
  destruct (@stream_receivers
              (demo_collaborators never never (closes_during 1))
              demo_args demo_source 0 (41 # 10) 3600) as [h' o] eqn:E.
  pose proof E as E2. vm_compute in E2. injection E2 as _ Ho. subst o.
  exists h'. split; [reflexivity|].
  exact (@one_flush_per_served_receiver
           (demo_collaborators never never (closes_during 1))
           demo_args 0 (41 # 10) 3600 demo_source h' Cancelled E).
Defined.

Lemma queue_is_drained_witness :
  exists h' o,
    @stream_receivers (demo_collaborators never never stays_open)
      demo_args demo_source 0 (41 # 10) 3600
    = (h', o)
    /\ Post.buf h' = [].
Proof.
  destruct (@stream_receivers (demo_collaborators never never stays_open)
              demo_args demo_source 0 (41 # 10) 3600) as [h' o] eqn:E.
  exists h', o. split; [reflexivity|].
  exact (@queue_is_drained (demo_collaborators never never stays_open)
           demo_args 0 (41 # 10) 3600 demo_source h' o E).
Defined.

Lemma archive_is_closed_at_the_end_witness :
  exists h' ws,
    @stream_receivers (demo_collaborators never never stays_open)
      demo_args demo_source 0 (41 # 10) 3600
    = (h', Finished)
    /\ written (Post.log h')
       = ws ++ [@zip_end (demo_collaborators never never stays_open)
                  (Post.zip_names h')].
Proof.
  destruct (@stream_receivers (demo_collaborators never never stays_open)
              demo_args demo_source 0 (41 # 10) 3600) as [h' o] eqn:E.
  pose proof E as E2. vm_compute in E2. injection E2 as _ Ho. subst o.
  destruct (@archive_is_closed_at_the_end
              (demo_collaborators never never stays_open)
              demo_args 0 (41 # 10) 3600 demo_source h' E) as [H _].
  destruct (H eq_refl) as [ws Hw].
  exists h', ws. split; [reflexivity | exact Hw].
Defined.

Lemma no_receivers_no_seismograms_witness :
  @stream_receivers (demo_collaborators_with [] files_writer)
    demo_args demo_source 0 (41 # 10) 3600
  = (Post.mk demo_source 0 [] [] [],
     Failed (HTTPError 400 msg_no_seismograms)).
Proof.
  apply (@no_receivers_no_seismograms
           (demo_collaborators_with [] files_writer)
           demo_args 0 (41 # 10) 3600 demo_source).
  reflexivity.
Defined.

Lemma files_without_zip_format_fail_witness :
  exists h',
    @receiver_loop (demo_collaborators_with demo_receivers files_writer)
      demo_args_miniseed 0 (41 # 10) 3600 0 demo_receivers
      (Post.mk demo_source 0 [] [] [])
    = (h', Raised AssertionError)
    /\ Post.count h' = 0%nat
    /\ written (Post.log h') = []
    /\ Post.zip_names h' = [].
Proof.
  exact (@files_without_zip_format_fail
           (demo_collaborators_with demo_receivers files_writer)
           demo_args_miniseed 0 (41 # 10) 3600 0
           (Receiver.mk 10 20 "XX" "A")
           [Receiver.mk 30 40 "XX" "B"; Receiver.mk 50 60 "XX" "C"]
           (Post.mk demo_source 0 [] [] []) (41 # 10) 3600
           [("A"%string, "sac"%string)]
           eq_refl eq_refl eq_refl eq_refl eq_refl).
Defined.

Lemma post_fails_early_witness :
  @post demo_kernels (demo_collaborators never never stays_open)
    demo_db demo_args ""
  = (None, Failed (HTTPError 400 msg_parse))
  /\ exists fs,
       @_parse_and_resample_finite_source demo_kernels "s" demo_db
       = Ok (inr fs)
       /\ @post demo_kernels (demo_collaborators never never stays_open)
            demo_db (demo_request (Some (TSFloat 3600)) None) "s"
          = (None, Failed (HTTPError 400 msg_starttime)).
Proof.
  split.
  - destruct (@post_fails_early demo_kernels
                (demo_collaborators never never stays_open)
                demo_db demo_args "") as [H _].
    apply H. reflexivity.
  - destruct (padding_quotient demo_db) as [[q|]|] eqn:Hq;
      try (vm_compute in Hq; discriminate Hq).
    destruct (@preparation_succeeds demo_kernels "s" demo_db demo_parsed q
                eq_refl eq_refl eq_refl Hq) as [fs Hprep].
    exists fs. split; [exact Hprep|].
    destruct (@post_fails_early demo_kernels
                (demo_collaborators never never stays_open)
                demo_db (demo_request (Some (TSFloat 3600)) None) "s")
      as [_ H].
    apply (H fs _ Hprep).
    destruct (prepared_source_shifts "s" demo_db fs Hprep)
      as (fs0 & samples & Hparse & Hs & _ & Hts & Hats).
    injection Hparse as <-.
    destruct (seismogram_times_total demo_db
                (fst (resolve_relative_times
                        (demo_request (Some (TSFloat 3600)) None)))
                fs 0 eq_refl) as [le Hle].
    { vm_compute. discriminate. }
    rewrite (parse_time_settings_result _ _ _ _ _ _ Hle).
    assert (Hle' : le = 0 - FiniteSource.time_shift fs + 3600).
    { pose proof (latest_endtime_without_dt demo_db
                    (fst (resolve_relative_times
                            (demo_request (Some (TSFloat 3600)) None)))
                    fs 0 eq_refl eq_refl) as H2.
      rewrite Hle in H2. now injection H2 as ->. }
    destruct (check_times_absolute_start
                (fst (resolve_relative_times
                        (demo_request (Some (TSFloat 3600)) None)))
                (0 - FiniteSource.time_shift fs
                 + FiniteSource.additional_time_shift fs) le
                (0 + 3600) eq_refl) as (Hlate & _).
    rewrite Hlate; [reflexivity|].
    rewrite Hle', Hts. vm_compute. discriminate.
Defined.

(** ** The exceptions of a request that reached the receivers *)

Section FailureFacts.
Context {c : Collaborators}.
Variable args : Args.t.
Variables time_of_first_sample min_starttime max_endtime : UTCDateTime.

Lemma handle_response_raises (h h2 : Post.t) (response : Response)
    (e : exn) :
  handle_response args h response = (h2, Raised e) ->
  response = RException e
  \/ e = AssertionError
     /\ String.eqb (Args.format args) "saczip" = false.
Proof.
  unfold handle_response. destruct response as [e'|files|data].
  - intros [= _ <-]. now left.
  - destruct (String.eqb (Args.format args) "saczip");
      [discriminate|].
    intros [= _ <-]. now right.
  - discriminate.
Qed.

Lemma get_finite_source_raises (fs : FiniteSource.t) (r : Receiver.t)
    (components : list Ascii.ascii) (units : string) (dt : option Q)
    (kernelwidth : Z) (starttime endtime : UTCDateTime) (format : string)
    (label : option string) (e : exn) :
  snd (_get_finite_source fs r components units dt kernelwidth starttime
         endtime time_of_first_sample format label) = RException e ->
  e = HTTPError 400 msg_extract
  \/ exists st src,
       _validate_and_write_waveforms st starttime endtime src r label
         format = RException e.
Proof.
  unfold _get_finite_source.
  destruct (get_seismograms_finite_source fs r components units dt
              kernelwidth) as [e'|st]; cbn.
  - intros [= <-]. now left.
  - intros H. right. eauto.
Qed.

Lemma receiver_loop_raises (rs : list Receiver.t) (i : nat)
    (h h' : Post.t) (e : exn) :
  receiver_loop args time_of_first_sample min_starttime max_endtime
    i rs h = (h', Raised e) ->
  e = HTTPError 400 msg_extract
  \/ e = AssertionError /\ String.eqb (Args.format args) "saczip" = false
  \/ exists st starttime endtime src r,
       In r rs
       /\ _validate_and_write_waveforms st starttime endtime src r
            (Args.label args) (Args.format args) = RException e.
Proof.
  revert i h. induction rs as [|r rs IH]; intros i h.
  - discriminate.
  - destruct (receiver_loop_step args time_of_first_sample min_starttime
                max_endtime i r rs h)
      as [[Hc E]|[(Hc & Hw & E)|(st & en & Hc & Hw & [[Hc' E]|[Hc' [(h2 & Hr & E)|(e' & Hr & E)]]])]];
      rewrite E; clear E.
    + discriminate.
    + intros H. destruct (IH _ _ H) as [H1|[H1|H1]]; auto.
      destruct H1 as (tr & s & en & src & r' & Hin & Hv).
      right. right. exists tr, s, en, src, r'. split; [now right | exact Hv].
    + discriminate.
    + intros H. destruct (IH _ _ H) as [H1|[H1|H1]]; auto.
      destruct H1 as (tr & s & en' & src & r' & Hin & Hv).
      right. right. exists tr, s, en', src, r'.
      split; [now right | exact Hv].
    + intros [= _ <-].
      destruct (handle_response_raises _ _ _ _ Hr) as [Hx|Hx]; [|auto].
      destruct (get_finite_source_raises _ _ _ _ _ _ _ _ _ _ _ Hx)
        as [He|(tr & src & Hv)]; [auto|].
      right. right. exists tr, st, en, src, r. split; [now left | exact Hv].
Qed.

(** X18.  A request that reached the receivers fails with one of four
    exceptions only: the error 400 on the missing seismograms, the error
    400 on the extraction, the [AssertionError] of line 323 when the
    format is not the zip file, or an exception that the writer of the
    waveforms handed back for one of the receivers. *)
Theorem request_failures (fs : FiniteSource.t) (h' : Post.t) (e : exn) :
  stream_receivers args fs time_of_first_sample min_starttime max_endtime
  = (h', Failed e) ->
  e = HTTPError 400 msg_no_seismograms
  \/ e = HTTPError 400 msg_extract
  \/ e = AssertionError /\ String.eqb (Args.format args) "saczip" = false
  \/ exists st starttime endtime src r,
       In r (get_receivers args)
       /\ _validate_and_write_waveforms st starttime endtime src r
            (Args.label args) (Args.format args) = RException e.
Proof.
  unfold stream_receivers.
  destruct (receiver_loop args time_of_first_sample min_starttime
              max_endtime 0 (get_receivers args) (Post.mk fs 0 [] [] []))
    as [h1 [| |e1]] eqn:Hl.
  - destruct (Nat.eqb (Post.count h1) 0); [|discriminate].
    intros [= _ <-]. now left.
  - discriminate.
  - intros [= _ <-]. right. exact (receiver_loop_raises _ _ _ _ _ Hl).
Qed.

End FailureFacts.

Lemma request_failures_witness :
  exists h',
    @stream_receivers
      (demo_collaborators never (String.eqb "B") stays_open)
      demo_args demo_source 0 (41 # 10) 3600
    = (h', Failed (HTTPError 400 msg_extract)).
Proof.
  destruct (@stream_receivers
              (demo_collaborators never (String.eqb "B") stays_open)
              demo_args demo_source 0 (41 # 10) 3600) as [h' o] eqn:E.
  pose proof E as E2. vm_compute in E2. injection E2 as _ Ho. subst o.
  exists h'.
  destruct (@request_failures
              (demo_collaborators never (String.eqb "B") stays_open)
              demo_args 0 (41 # 10) 3600 demo_source h' _ E)
    as [H|[H|[[H _]|(st & s & en & src & r & _ & H)]]].
  - discriminate H.
  - reflexivity.
  - discriminate H.
  - reflexivity.
Defined.
